(** * Monthly hours analysis (Google Apps Script): a shallow embedding

    The script reads a club's opening hours and booking rows from a
    spreadsheet and builds an hour-by-day usage report.  This file embeds
    the functions of [MonthlyHoursW13060848.js] (and of its "optimized"
    variant, where the two differ) and proves properties of them.

    Conventions of the embedding.
    - A spreadsheet cell read with [getValues] is a string, a number, a
      boolean or a [Date]; an empty cell is the empty string.  Numbers in
      cells are IEEE binary64, as in JavaScript: Rocq's primitive [float].
    - Hours of the day are produced by [parseInt], [Date.getHours] and
      [Math.floor]; they are integral, [NaN] or infinite.  They are kept in
      the type [inum], whose finite values are exact integers (JavaScript
      agrees with exact integers up to 2^53).
    - Strings are sequences of 8-bit code units (Latin-1).
    - What the host decides (how a number or a date prints, how a date is
      parsed from text) is a parameter of the model, class [JsHost]. *)

From Stdlib Require Import ZArith Lia String Ascii Floats.
From stdpp Require Import base option list gmap strings.

Set Warnings "-inexact-float".
Local Open Scope Z_scope.

(** ** JavaScript values *)

(** Integral numbers: the values an hour of the day can take. *)
Inductive inum :=
| NaN
| NegInf
| Int (z : Z)
| PosInf.

Module INum.

(** [a < b] *)
Definition ltb (a b : inum) : bool :=
  match a, b with
  | NaN, _ | _, NaN => false
  | NegInf, NegInf => false
  | NegInf, _ => true
  | Int _, NegInf => false
  | Int x, Int y => x <? y
  | Int _, PosInf => true
  | PosInf, _ => false
  end.

(** [a <= b] *)
Definition leb (a b : inum) : bool :=
  match a, b with
  | NaN, _ | _, NaN => false
  | NegInf, _ => true
  | Int _, NegInf => false
  | Int x, Int y => x <=? y
  | Int _, PosInf => true
  | PosInf, PosInf => true
  | PosInf, _ => false
  end.

(** [a > b] and [a >= b] *)
Definition gtb (a b : inum) : bool := ltb b a.
Definition geb (a b : inum) : bool := leb b a.

(** [a === b] *)
Definition eqb (a b : inum) : bool :=
  match a, b with
  | NegInf, NegInf | PosInf, PosInf => true
  | Int x, Int y => x =? y
  | _, _ => false
  end.

Definition isNaN (a : inum) : bool :=
  match a with NaN => true | _ => false end.

(** [a + k] for an integer constant [k] *)
Definition add (a : inum) (k : Z) : inum :=
  match a with Int x => Int (x + k) | _ => a end.

End INum.

(** [Math.floor] of a binary64 number. *)
Definition Math_floor (x : float) : inum :=
  match Prim2SF x with
  | S754_nan => NaN
  | S754_infinity s => if s then NegInf else PosInf
  | S754_zero _ => Int 0
  | S754_finite s m e =>
      let n := if s then Z.neg m else Z.pos m in
      Int (if 0 <=? e then n * 2 ^ e else n / 2 ^ (- e))
  end.

(** A [Date] object in local time; [month] is 0-based as [getMonth]
    returns it.  An invalid date has [NaN] for every field. *)
Inductive jsdate :=
| InvalidDate
| DateOf (year month date hours : Z).

Definition getFullYear (d : jsdate) : inum :=
  match d with DateOf y _ _ _ => Int y | InvalidDate => NaN end.
Definition getMonth (d : jsdate) : inum :=
  match d with DateOf _ m _ _ => Int m | InvalidDate => NaN end.
Definition getDate (d : jsdate) : inum :=
  match d with DateOf _ _ dd _ => Int dd | InvalidDate => NaN end.
Definition getHours (d : jsdate) : inum :=
  match d with DateOf _ _ _ h => Int h | InvalidDate => NaN end.

(** A cell value as [Range.getValues] returns it. *)
Inductive cell :=
| VStr (s : string)
| VNum (x : float)
| VBool (b : bool)
| VDate (d : jsdate).

(** A tab as [getValues] returns its data range, and a grid of the
    report: rows of cells. *)
Abbreviation sheet := (list (list cell)).
Abbreviation grid := (list (list cell)).

(** [ToBoolean] *)
Definition truthy (v : cell) : bool :=
  match v with
  | VStr s => negb (String.eqb s "")
  | VNum x => negb (is_zero x || is_nan x)
  | VBool b => b
  | VDate _ => true
  end.

(** An array element that may be missing: [None] is [undefined]. *)
Definition truthy_opt (v : option cell) : bool :=
  match v with Some c => truthy c | None => false end.

(** [v === 0] *)
Definition is_number_zero (v : cell) : bool :=
  match v with VNum x => (x =? 0)%float | _ => false end.

(** What the model takes from the host. *)
Class JsHost := {
  (** [Number.prototype.toString] *)
  Number_toString : float -> string;
  (** [Date.prototype.toString], which depends on the time zone *)
  Date_toString : jsdate -> string;
  (** [new Date(s)] for a string, which depends on the engine *)
  Date_ofString : string -> jsdate;
  (** [new Date(x)] for a time value, which depends on the time zone *)
  Date_ofNumber : float -> jsdate;
  (** [Number(s)] for a string *)
  Number_ofString : string -> float;
  (** [Number(d)] for a date: its time value *)
  Date_valueOf : jsdate -> float
}.

Definition Bool_toString (b : bool) : string :=
  if b then "true" else "false".

(** [v.toString()], also the property key [v] stands for *)
Definition toString `{JsHost} (v : cell) : string :=
  match v with
  | VStr s => s
  | VNum x => Number_toString x
  | VBool b => Bool_toString b
  | VDate d => Date_toString d
  end.

(** ** Strings *)

Module Str.

Definition code (c : ascii) : N := N_of_ascii c.

(** White space and line terminators, as [trim], [parseInt] and the
    regular expression class [\s] see them. *)
Definition is_space (c : ascii) : bool :=
  let n := code c in
  ((9 <=? n) && (n <=? 13) || (n =? 32) || (n =? 160))%N.

(** [\d] *)
Definition is_digit (c : ascii) : bool :=
  let n := code c in ((48 <=? n) && (n <=? 57))%N.

Definition upper (c : ascii) : ascii :=
  let n := code c in
  if ((97 <=? n) && (n <=? 122))%N then ascii_of_N (n - 32) else c.

(** [s.toUpperCase()], on the letters a to z *)
Fixpoint toUpperCase (s : string) : string :=
  match s with
  | EmptyString => EmptyString
  | String c s' => String (upper c) (toUpperCase s')
  end.

Fixpoint trimStart (s : string) : string :=
  match s with
  | String c s' => if is_space c then trimStart s' else s
  | EmptyString => EmptyString
  end.

Fixpoint trimEnd (s : string) : string :=
  match s with
  | String c s' =>
      let r := trimEnd s' in
      if is_space c && String.eqb r "" then EmptyString else String c r
  | EmptyString => EmptyString
  end.

Definition trim (s : string) : string := trimEnd (trimStart s).

(** [s.split(sep)] for a one-character separator *)
Fixpoint split (sep : ascii) (s : string) : list string :=
  match s with
  | EmptyString => [EmptyString]
  | String c s' =>
      if Ascii.eqb c sep then EmptyString :: split sep s'
      else match split sep s' with
           | p :: ps => String c p :: ps
           | [] => [String c EmptyString]
           end
  end.

(** [s.indexOf(t)] *)
Definition indexOf (s t : string) : Z :=
  match String.index 0 t s with
  | Some n => Z.of_nat n
  | None => -1
  end.

(** The value of a digit in the given radix, if it is one. *)
Definition digit_value (radix : Z) (c : ascii) : option Z :=
  let n := Z.of_N (code c) in
  let v := if (48 <=? n) && (n <=? 57) then n - 48
           else if (97 <=? n) && (n <=? 122) then n - 87
           else if (65 <=? n) && (n <=? 90) then n - 55
           else radix in
  if v <? radix then Some v else None.

(** The longest prefix of digits, read from the left with accumulator
    [acc]; [seen] tells whether a digit was read. *)
Fixpoint digits (radix : Z) (s : string) (acc : Z) (seen : bool) : option Z :=
  match s with
  | String c s' =>
      match digit_value radix c with
      | Some v => digits radix s' (acc * radix + v) true
      | None => if seen then Some acc else None
      end
  | EmptyString => if seen then Some acc else None
  end.

(** [parseInt(s)] with no radix argument *)
Definition parseInt (s : string) : inum :=
  let s1 := trimStart s in
  let '(sign, s2) :=
    match s1 with
    | String "-" r => (-1, r)
    | String "+" r => (1, r)
    | _ => (1, s1)
    end in
  let '(radix, s3) :=
    match s2 with
    | String "0" (String "x" r) | String "0" (String "X" r) => (16, r)
    | _ => (10, s2)
    end in
  match digits radix s3 0 false with
  | Some n => Int (sign * n)
  | None => NaN
  end.

Definition digit_char (d : Z) : ascii := ascii_of_N (Z.to_N (48 + d)).

(** Decimal digits of a natural number, most significant first. *)
Fixpoint decimal (fuel : nat) (n : Z) (acc : string) : string :=
  match fuel with
  | O => acc
  | S fuel' =>
      let acc' := String (digit_char (n mod 10)) acc in
      if n <? 10 then acc' else decimal fuel' (n / 10) acc'
  end.

(** How an integral number prints. *)
Definition of_inum (a : inum) : string :=
  match a with
  | NaN => "NaN"
  | NegInf => "-Infinity"
  | PosInf => "Infinity"
  | Int z =>
      if z <? 0 then String "-" (decimal (Z.to_nat (- z)) (- z) EmptyString)
      else decimal (S (Z.to_nat z)) z EmptyString
  end.

End Str.

(** ** Regular expressions

    A backtracking matcher for the fragment the script uses: character
    classes, greedy bounded and unbounded repetition of a class, sequence,
    alternation, a greedy optional part and capturing groups.  Alternatives
    are tried in the order ECMAScript tries them. *)

Module Regex.

Inductive t :=
| Chr (p : ascii -> bool)
| Rep (p : ascii -> bool) (lo : nat) (hi : option nat)
| Seq (r1 r2 : t)
| Alt (r1 r2 : t)
| Opt (r : t)
| Grp (i : nat) (r : t).

Definition captures := gmap nat string.

(** What was read between [s] and its suffix [s']. *)
Definition consumed (s s' : string) : string :=
  String.substring 0 (String.length s - String.length s') s.

(** Greedy [p{lo,hi}]: one more character first, the continuation [k]
    on what is left only when that fails and [lo] is reached. *)
Fixpoint rep {A} (p : ascii -> bool) (lo : nat) (hi : option nat)
    (s : string) (k : string -> option A) : option A :=
  let stop := match lo with O => k s | S _ => None end in
  match hi with
  | Some O => stop
  | _ =>
      match s with
      | String c s' =>
          if p c then
            match rep p (Nat.pred lo) (Nat.pred <$> hi) s' k with
            | Some r => Some r
            | None => stop
            end
          else stop
      | EmptyString => stop
      end
  end.

Fixpoint run (r : t) (s : string) (caps : captures)
    (k : string -> captures -> option captures) : option captures :=
  match r with
  | Chr p =>
      match s with
      | String c s' => if p c then k s' caps else None
      | EmptyString => None
      end
  | Rep p lo hi => rep p lo hi s (fun s' => k s' caps)
  | Seq r1 r2 => run r1 s caps (fun s' caps' => run r2 s' caps' k)
  | Alt r1 r2 =>
      match run r1 s caps k with
      | Some c => Some c
      | None => run r2 s caps k
      end
  | Opt r1 =>
      match run r1 s caps k with
      | Some c => Some c
      | None => k s caps
      end
  | Grp i r1 =>
      run r1 s caps (fun s' caps' => k s' (<[i := consumed s s']> caps'))
  end.

(** [s.match(r)] without the [g] flag: the first position where [r]
    matches, and the groups of that match. *)
Fixpoint search (r : t) (s : string) : option captures :=
  match run r s ∅ (fun _ caps => Some caps) with
  | Some c => Some c
  | None =>
      match s with
      | String _ s' => search r s'
      | EmptyString => None
      end
  end.

Definition lit (c : ascii) : ascii -> bool := Ascii.eqb c.

(** A letter under the [i] flag; [c] is given in upper case. *)
Definition ci (c : ascii) : ascii -> bool :=
  fun x => Ascii.eqb (Str.upper x) c.

Definition digit12 : t := Rep Str.is_digit 1 (Some 2%nat).

(** [/(\d{1,2})(?::(\d{2}))?\s*(AM|PM)/i] *)
Definition ampm : t :=
  Seq (Grp 1 digit12)
    (Seq (Opt (Seq (Chr (lit ":")) (Grp 2 (Rep Str.is_digit 2 (Some 2%nat)))))
       (Seq (Rep Str.is_space 0 None)
          (Grp 3 (Alt (Seq (Chr (ci "A")) (Chr (ci "M")))
                      (Seq (Chr (ci "P")) (Chr (ci "M"))))))).

(** [/(\d{1,2}):/] *)
Definition hour_colon : t :=
  Seq (Grp 1 digit12) (Chr (lit ":")).

End Regex.

(** ** Time formatting and parsing *)

(** [formatTimeAMPM(hour)] *)
Definition formatTimeAMPM (hour : inum) : string :=
  if INum.eqb hour (Int 0) then "12AM"
  else if INum.eqb hour (Int 24) then "Midnight"
  else if INum.eqb hour (Int 12) then "12PM"
  else if INum.ltb hour (Int 12) then Str.of_inum hour +:+ "AM"
  else Str.of_inum (INum.add hour (-12)) +:+ "PM".

(** The part of [parseHourFromTime] that works on the trimmed text. *)
Definition parseHourFromString (timeStr : string) : inum :=
  match Regex.search Regex.ampm timeStr with
  | Some ampmMatch =>
      let hour := Str.parseInt (default "" (ampmMatch !! 1%nat)) in
      let isPM :=
        String.eqb (Str.toUpperCase (default "" (ampmMatch !! 3%nat))) "PM" in
      if INum.eqb hour (Int 12) && negb isPM then Int 0
      else if negb (INum.eqb hour (Int 12)) && isPM then INum.add hour 12
      else hour
  | None =>
      match Regex.search Regex.hour_colon timeStr with
      | Some hourMatch => Str.parseInt (default "" (hourMatch !! 1%nat))
      | None =>
          let num := Str.parseInt timeStr in
          if negb (INum.isNaN num) then num else Int 0
      end
  end.

(** [parseHourFromTime(timeValue)] *)
Definition parseHourFromTime (timeValue : cell) : inum :=
  if negb (truthy timeValue) && negb (is_number_zero timeValue) then Int 0
  else
    match timeValue with
    | VDate d => getHours d
    | VNum x => Math_floor (x * 24)%float
    | VStr s => parseHourFromString (Str.trim s)
    | VBool b => parseHourFromString (Str.trim (Bool_toString b))
    end.

(** ** The calendar behind [Date]

    [new Date(year, month, day)] builds a local date from a year, a 0-based
    month that may overflow into the neighbouring years, and a day of the
    month that may overflow into the neighbouring months.  Days are
    counted from 1 January 1970 in the proleptic Gregorian calendar. *)

Module Calendar.

(** The day number of a civil date, [m] in 1..12. *)
Definition days_from_civil (y m d : Z) : Z :=
  let y' := if m <=? 2 then y - 1 else y in
  let era := y' / 400 in
  let yoe := y' - era * 400 in
  let mp := if 2 <? m then m - 3 else m + 9 in
  let doy := (153 * mp + 2) / 5 + d - 1 in
  let doe := yoe * 365 + yoe / 4 - yoe / 100 + doy in
  era * 146097 + doe - 719468.

(** The civil date of a day number: year, month in 1..12, day. *)
Definition civil_from_days (n : Z) : Z * Z * Z :=
  let z := n + 719468 in
  let era := z / 146097 in
  let doe := z - era * 146097 in
  let yoe := (doe - doe / 1460 + doe / 36524 - doe / 146096) / 365 in
  let doy := doe - (365 * yoe + yoe / 4 - yoe / 100) in
  let mp := (5 * doy + 2) / 153 in
  let d := doy - (153 * mp + 2) / 5 + 1 in
  let m := if mp <? 10 then mp + 3 else mp - 9 in
  let y := yoe + era * 400 in
  (if m <=? 2 then y + 1 else y, m, d).

(** The day number of [new Date(year, month, day)]. *)
Definition day_number (year month day : Z) : Z :=
  let yr := if (0 <=? year) && (year <=? 99) then 1900 + year else year in
  days_from_civil (yr + month / 12) (month mod 12 + 1) 1 + day - 1.

(** [new Date(year, month, day)] *)
Definition newDate (year month day : Z) : jsdate :=
  let '(y, m, d) := civil_from_days (day_number year month day) in
  DateOf y (m - 1) d 0.

(** [new Date(year, month, day).getDate()] *)
Definition dateOf (year month day : Z) : Z :=
  (civil_from_days (day_number year month day)).2.

(** [new Date(year, month, day).getDay()]: 0 is Sunday. *)
Definition dayOf (year month day : Z) : Z :=
  (day_number year month day + 4) mod 7.

End Calendar.

(** ** The day-of-week cache *)

Definition dayNames : list string :=
  ["Sunday"; "Monday"; "Tuesday"; "Wednesday"; "Thursday"; "Friday";
   "Saturday"]%string.

Record dayInfo := { dayName : string; dayIndex : Z }.

(** [new Date(year, monthNum, 0).getDate()] *)
Definition daysInMonth_of (monthNum year : Z) : Z :=
  Calendar.dateOf year monthNum 0.

(** [buildDayOfWeekCache(monthNum, year)] *)
Definition buildDayOfWeekCache (monthNum year : Z) : gmap Z dayInfo :=
  let daysInMonth := daysInMonth_of monthNum year in
  fold_left
    (fun cache day =>
       let dayIndex := Calendar.dayOf year (monthNum - 1) day in
       <[day := {| dayName := dayNames !!! Z.to_nat dayIndex;
                   dayIndex := dayIndex |}]> cache)
    (seqZ 1 daysInMonth) ∅.

(** ** Opening hours and the availability grid *)

Record interval := { open : inum; close : inum }.

(** The part of the ClubInfo tab the script reads: cell D5, the rows of
    A9:B25 as pairs, and the block D5:K7 by row and column. *)
Record ClubInfo := {
  D5 : cell;
  A9_B25 : list (cell * cell);
  D5_K7 : nat -> nat -> cell
}.

(** [obj[key] = v] on a plain object: the key [__proto__] names the
    prototype and adds no property. *)
Definition obj_set {A} (key : string) (v : A) (obj : gmap string A)
    : gmap string A :=
  if String.eqb key "__proto__" then obj else <[key := v]> obj.

Record hours_state := {
  dayOpeningHours : gmap string interval;
  earliestHour : inum;
  latestHour : inum
}.

Definition initial_hours : hours_state :=
  {| dayOpeningHours := ∅; earliestHour := Int 24; latestHour := Int 0 |}.

(** Storing one day's hours and widening the bounds. *)
Definition store_hours (dayName : string) (openHour closeHour : inum)
    (st : hours_state) : hours_state :=
  {| dayOpeningHours :=
       obj_set dayName {| open := openHour; close := closeHour |}
         (dayOpeningHours st);
     earliestHour :=
       if INum.ltb openHour (earliestHour st) then openHour
       else earliestHour st;
     latestHour :=
       if INum.gtb closeHour (latestHour st) then closeHour
       else latestHour st |}.

(** The close hour of the list format: "24:00", and "00:00" read as 0,
    stand for midnight at the end of the day. *)
Definition traditional_close (closeTime : string) : inum :=
  let closeHour := Str.parseInt (hd ""%string (Str.split ":" closeTime)) in
  if String.eqb closeTime "24:00"
     || (INum.eqb closeHour (Int 0) && (0 <=? Str.indexOf closeTime "00:00"))
  then Int 24 else closeHour.

Section Resolver.
Context `{JsHost}.

Definition hasTraditionalFormat (openingHoursData : list (cell * cell))
    : bool :=
  existsb (fun row => truthy row.1 && truthy row.2) openingHoursData.

(** One row of A9:B25, a day name and "HH:MM-HH:MM". *)
Definition traditional_row (st : hours_state) (row : cell * cell)
    : hours_state :=
  let '(dayName, hoursString) := row in
  if truthy dayName && truthy hoursString then
    let hoursStr := toString hoursString in
    match Str.split "-" hoursStr with
    | [part0; part1] =>
        let openTime := Str.trim part0 in
        let closeTime := Str.trim part1 in
        let openHour :=
          Str.parseInt (hd ""%string (Str.split ":" openTime)) in
        let closeHour := traditional_close closeTime in
        if negb (INum.isNaN openHour) && negb (INum.isNaN closeHour)
        then store_hours (toString dayName) openHour closeHour st
        else st
    | _ => st
    end
  else st.

(** One column of D5:K7, for the day number [i] of the week. *)
Definition grid_column (range : nat -> nat -> cell) (st : hours_state)
    (i : nat) : hours_state :=
  let dayName := dayNames !!! i in
  let openTime := range 1%nat (i + 1)%nat in
  let closeTime := range 2%nat (i + 1)%nat in
  let openHour := parseHourFromTime openTime in
  let closeHour := parseHourFromTime closeTime in
  let closeHour := if INum.eqb closeHour (Int 0) then Int 24 else closeHour in
  store_hours dayName openHour closeHour st.

(** The opening hours as parsed, before the safety check. *)
Definition parse_opening_hours (info : ClubInfo) : hours_state :=
  if hasTraditionalFormat (A9_B25 info)
  then fold_left traditional_row (A9_B25 info) initial_hours
  else fold_left (grid_column (D5_K7 info)) (seq 0 7) initial_hours.

Definition no_valid_hours (st : hours_state) : bool :=
  INum.eqb (earliestHour st) (Int 24)
  || INum.eqb (latestHour st) (Int 0)
  || (size (dayOpeningHours st) =? 0)%nat.

(** The safety check: default hours 8AM-11PM for all days. *)
Definition use_defaults (st : hours_state) : hours_state :=
  if no_valid_hours st then
    {| dayOpeningHours :=
         fold_left
           (fun obj name => obj_set name {| open := Int 8; close := Int 23 |} obj)
           dayNames (dayOpeningHours st);
       earliestHour := Int 8;
       latestHour := Int 23 |}
  else st.

(** [for (hour = first; hour <= last; hour++) timeRows.push(hour)];
    [None] when a bound is infinite and the loop does not end. *)
Definition hour_rows (first last : inum) : option (list Z) :=
  if INum.leb first last then
    match first, last with
    | Int a, Int b => Some (seqZ a (b - a + 1))
    | _, _ => None
    end
  else Some [].

(** [g[r][c] = v], for indices inside the grid *)
Definition grid_set (g : grid) (r c : nat) (v : cell) : grid :=
  alter (<[c := v]>) r g.

(** [openingInfo && hour >= openingInfo.open && hour < openingInfo.close] *)
Definition is_open (openingInfo : option interval) (hour : Z) : bool :=
  match openingInfo with
  | Some i => INum.geb (Int hour) (open i) && INum.ltb (Int hour) (close i)
  | None => false
  end.

(** The value of one cell of the grid. *)
Definition available_hours (hours : gmap string interval)
    (maxHoursPerHour : cell) (hour : Z) (dayInfo : dayInfo) : cell :=
  let openingInfo := hours !! dayName dayInfo in
  if is_open openingInfo hour then maxHoursPerHour else VNum 0.

(** The loop over the days, for one slot.  A day missing from the cache
    would raise an error; the grid is then left as it is. *)
Definition fill_slot (hours : gmap string interval)
    (dayOfWeekCache : gmap Z dayInfo) (maxHoursPerHour : cell)
    (hourIndex : nat) (hour : Z) (daysInMonth : Z) (availableGrid : grid)
    : grid :=
  fold_left
    (fun g day =>
       let dayIndex := day - 1 in
       match dayOfWeekCache !! day with
       | Some dayInfo =>
           grid_set g hourIndex (Z.to_nat dayIndex)
             (available_hours hours maxHoursPerHour hour dayInfo)
       | None => g
       end)
    (seqZ 1 daysInMonth) availableGrid.

(** The loop over the slots. *)
Definition fill_available (hours : gmap string interval)
    (dayOfWeekCache : gmap Z dayInfo) (maxHoursPerHour : cell)
    (timeRows : list Z) (daysInMonth : Z) (availableGrid : grid) : grid :=
  fold_left
    (fun g hourIndex =>
       fill_slot hours dayOfWeekCache maxHoursPerHour hourIndex
         (timeRows !!! hourIndex) daysInMonth g)
    (seq 0 (length timeRows)) availableGrid.

Record availability := {
  availableGrid : grid;
  timeRows : list Z;
  daysInMonth : Z;
  maxHoursPerHour : cell;
  av_earliestHour : inum;
  av_latestHour : inum;
  av_dayOpeningHours : gmap string interval;
  dayOfWeekCache : gmap Z dayInfo
}.

(** [calculateAvailableHours(monthNum, year)] on the ClubInfo tab;
    [None] when the loop over the hours does not end. *)
Definition calculateAvailableHours (info : ClubInfo) (monthNum year : Z)
    : option availability :=
  let maxHoursPerHour := D5 info in
  let st := use_defaults (parse_opening_hours info) in
  let dayOfWeekCache := buildDayOfWeekCache monthNum year in
  let daysInMonth := daysInMonth_of monthNum year in
  let lastHourRow :=
    if INum.eqb (latestHour st) (Int 24) then Int 23
    else INum.add (latestHour st) (-1) in
  let '(earliestHour, lastHourRow) :=
    if INum.gtb (earliestHour st) lastHourRow then (Int 8, Int 23)
    else (earliestHour st, lastHourRow) in
  timeRows ← hour_rows earliestHour lastHourRow;
  let availableGrid :=
    replicate (length timeRows) (replicate (Z.to_nat daysInMonth) (VNum 0)) in
  Some {| availableGrid :=
            fill_available (dayOpeningHours st) dayOfWeekCache
              maxHoursPerHour timeRows daysInMonth availableGrid;
          timeRows := timeRows;
          daysInMonth := daysInMonth;
          maxHoursPerHour := maxHoursPerHour;
          av_earliestHour := earliestHour;
          av_latestHour := latestHour st;
          av_dayOpeningHours := dayOpeningHours st;
          dayOfWeekCache := dayOfWeekCache |}.

End Resolver.

(** ** Sheets and totals *)

(** Column H (index 7) of the rows; a row too short has an empty cell. *)
Definition columnH (sh : sheet) : list cell :=
  map (fun row => default (VStr "") (row !! 7%nat)) sh.

(** [sumColumnH(sheet, sheetName)] *)
Definition sumColumnH (sh : sheet) : float :=
  fold_left
    (fun sum value =>
       match value with
       | VNum x => if negb (is_nan x) then (sum + x)%float else sum
       | _ => sum
       end)
    (columnH sh) 0%float.

(** [/^\d{4}$/.test(s)] *)
Definition four_digits (s : string) : bool :=
  match s with
  | String a (String b (String c (String d EmptyString))) =>
      Str.is_digit a && Str.is_digit b && Str.is_digit c && Str.is_digit d
  | _ => false
  end.

(** ** Validation of the tab pairs: [monthHours] *)

Definition verdict (isEqual : bool) : string :=
  if isEqual then "EQUAL" else "NOT EQUAL".

Section MonthHours.
Context `{JsHost}.

(** The line [monthHours] reports for one pair of tabs. *)
Definition compare_pair (tabs : gmap string sheet)
    (monthDigits name : string) : string :=
  let primary := monthDigits +:+ name in
  let secondary := monthDigits +:+ name +:+ "_2" in
  match tabs !! primary with
  | None =>
      name +:+ " comparison: Primary tab '" +:+ primary +:+ "' not found"
  | Some primarySheet =>
      match tabs !! secondary with
      | None =>
          name +:+ " comparison: Secondary tab '" +:+ secondary
            +:+ "' not found"
      | Some secondarySheet =>
          let primarySum := sumColumnH primarySheet in
          let secondarySum := sumColumnH secondarySheet in
          let isEqual := (primarySum =? secondarySum)%float in
          name +:+ " comparison: " +:+ Number_toString primarySum
            +:+ " vs " +:+ Number_toString secondarySum
            +:+ " - " +:+ verdict isEqual
      end
  end.

(** [monthHours()]: the lines shown to the user, or nothing when the
    prompt is cancelled or the input is not four digits. *)
Definition monthHours (tabs : gmap string sheet) (response : option string)
    : option (list string) :=
  monthDigits ← response;
  if negb (four_digits monthDigits) then None
  else Some (map (compare_pair tabs monthDigits) ["e"; "i"; "na"]%string).

End MonthHours.

(** ** The hours-days table: [createHoursDaysTable] *)

(** The validation cell E3. *)
Definition validation_status (eTotal e2Total : float) : string :=
  if (0.01 <? abs (eTotal - e2Total))%float then "Please Check" else "OK".

(** [timeRows.indexOf(hour)] *)
Fixpoint indexOf_from (timeRows : list Z) (hour : Z) (i : Z) : Z :=
  match timeRows with
  | [] => -1
  | x :: rest => if x =? hour then i else indexOf_from rest hour (i + 1)
  end.

Definition indexOf (timeRows : list Z) (hour : inum) : Z :=
  match hour with
  | Int h => indexOf_from timeRows h 0
  | _ => -1
  end.

(** The hour of a booking's start time. *)
Definition booking_hour (startTime : cell) : inum :=
  match startTime with
  | VDate d => getHours d
  | VNum x => Math_floor (x * 24)%float
  | VStr s => parseHourFromTime (VStr s)
  | VBool b => parseHourFromTime (VStr (Bool_toString b))
  end.

(** [a === b] on cell values; two [Date] objects are never the same. *)
Definition strict_eq (a b : cell) : bool :=
  match a, b with
  | VNum x, VNum y => (x =? y)%float
  | VStr s, VStr t => String.eqb s t
  | VBool x, VBool y => Bool.eqb x y
  | _, _ => false
  end.

(** The cell is shown closed: [availableHours === 0]. *)
Definition is_closed (availableHours : cell) : bool :=
  is_number_zero availableHours.

(** What is written to the sheet for a value of the data grid. *)
Definition written (value : cell) : cell :=
  if is_number_zero value then VStr "" else value.

Section Table.
Context `{JsHost}.

(** [Number(v)] *)
Definition toNumber (v : cell) : float :=
  match v with
  | VNum x => x
  | VBool b => if b then 1%float else 0%float
  | VStr s => Number_ofString s
  | VDate d => Date_valueOf d
  end.

(** [a + b]: text as soon as one side is text or a date. *)
Definition js_add (a b : cell) : cell :=
  match a, b with
  | (VStr _ | VDate _), _ | _, (VStr _ | VDate _) =>
      VStr (toString a +:+ toString b)
  | _, _ => VNum (toNumber a + toNumber b)%float
  end.

(** [new Date(dateValue)] *)
Definition newDate_of (dateValue : cell) : jsdate :=
  match dateValue with
  | VDate d => d
  | VStr s => Date_ofString s
  | VNum x => Date_ofNumber x
  | VBool b => Date_ofNumber (if b then 1%float else 0%float)
  end.

(** [g[r][c] += v] *)
Definition grid_add (g : grid) (r c : nat) (v : cell) : grid :=
  alter (alter (fun old => js_add old v) c) r g.

(** The body of the loop over the booking rows: the data grid and the
    count of processed rows, before and after one row.  An element
    missing from the row is [undefined], which is falsy. *)
Definition add_booking (monthNum year : Z) (timeRows : list Z)
    (daysInMonth : Z) (st : grid * Z) (rowData : list cell) : grid * Z :=
  let '(dataGrid, processedCount) := st in
  match rowData !! 3%nat, rowData !! 5%nat, rowData !! 7%nat with
  | Some dateValue, Some startTime, Some hours =>
      if truthy dateValue && truthy startTime && truthy hours then
        let bookingDate := newDate_of dateValue in
        let bookingDay := getDate bookingDate in
        let bookingMonth := INum.add (getMonth bookingDate) 1 in
        let bookingYear := getFullYear bookingDate in
        if INum.eqb bookingMonth (Int monthNum)
           && INum.eqb bookingYear (Int year) then
          let hour := booking_hour startTime in
          let hourIndex := indexOf timeRows hour in
          let dayIndex := INum.add bookingDay (-1) in
          match dayIndex with
          | Int di =>
              if (0 <=? hourIndex) && (0 <=? di) && (di <? daysInMonth)
              then (grid_add dataGrid (Z.to_nat hourIndex) (Z.to_nat di)
                      hours,
                    processedCount + 1)
              else st
          | _ => st
          end
        else st
      else st
  | _, _, _ => st
  end.

(** The loop over the rows of the source tab; row 0 is the header. *)
Definition aggregate (monthNum year : Z) (timeRows : list Z)
    (daysInMonth : Z) (sourceData : sheet) : grid * Z :=
  fold_left (add_booking monthNum year timeRows daysInMonth)
    (tail sourceData)
    (replicate (length timeRows)
       (replicate (Z.to_nat daysInMonth) (VNum 0)), 0).

(** The cell is shown at maximum capacity.  The script reads the value
    back from the sheet and compares numbers. *)
Definition at_max_capacity (value availableHours : cell) : bool :=
  let cellValue := written value in
  truthy cellValue
  && (0 <? toNumber availableHours)%float
  && (toNumber cellValue =? toNumber availableHours)%float.

(** The optimized variant takes the value from the data grid and
    compares with [===]. *)
Definition at_max_capacity_opt (value availableHours : cell) : bool :=
  truthy value
  && (0 <? toNumber availableHours)%float
  && strict_eq value availableHours.

Record report := {
  eTotal : float;
  e2Total : float;
  status : string;
  rep_timeRows : list Z;
  rep_daysInMonth : Z;
  rep_availableGrid : grid;
  dataGrid : grid;
  processedCount : Z
}.

Record Spreadsheet := {
  clubInfo : option ClubInfo;
  tabs : gmap string sheet
}.

Definition default_timeRows : list Z :=
  [8; 9; 10; 11; 12; 13; 14; 15; 16; 17; 18; 19; 20; 21; 22; 23].

(** [createHoursDaysTable()]: what the report is built from.  [None]
    when the script stops before the report: the prompt is cancelled,
    the input is not four digits, the ClubInfo tab or the source tab is
    missing, or the loop over the hours does not end. *)
Definition createHoursDaysTable (ss : Spreadsheet)
    (response : option string) : option report :=
  monthDigits ← response;
  if negb (four_digits monthDigits) then None else
  match Str.parseInt (String.substring 0 2 monthDigits),
        Str.parseInt ("20" +:+ String.substring 2 2 monthDigits) with
  | Int monthNum, Int year =>
      info ← clubInfo ss;
      availabilityData ← calculateAvailableHours info monthNum year;
      sourceSheet ← tabs ss !! (monthDigits +:+ "e_2");
      let eTotal :=
        match tabs ss !! (monthDigits +:+ "e") with
        | Some eSheet => sumColumnH eSheet
        | None => 0%float
        end in
      let e2Total := sumColumnH sourceSheet in
      let timeRows :=
        if (length (timeRows availabilityData) =? 0)%nat
        then default_timeRows else timeRows availabilityData in
      let '(dataGrid, processedCount) :=
        aggregate monthNum year timeRows (daysInMonth availabilityData)
          sourceSheet in
      Some {| eTotal := eTotal;
              e2Total := e2Total;
              status := validation_status eTotal e2Total;
              rep_timeRows := timeRows;
              rep_daysInMonth := daysInMonth availabilityData;
              rep_availableGrid := availableGrid availabilityData;
              dataGrid := dataGrid;
              processedCount := processedCount |}
  | _, _ => None
  end.

End Table.

(** ** The diagnostic of the ClubInfo tab: [checkClubInfo]

    For every row of A9:B25 with a day and hours, the diagnostic shows
    the open and close hours it parses and a status.  The status texts
    start with a check mark or a cross. *)

Inductive check_status :=
| CheckOK          (* "OK" *)
| CheckParseError  (* "Parse Error" *)
| CheckNoHyphen.   (* "No hyphen found" *)

Record check_line := {
  shown_day : cell;
  shown_hours : cell;
  shown_open : option inum;
  shown_close : option inum;
  shown_status : check_status
}.

(** The close hour as the diagnostic reads it. *)
Definition check_close (closeTime : string) : inum :=
  let closeHour := Str.parseInt (hd ""%string (Str.split ":" closeTime)) in
  if String.eqb closeTime "24:00" || String.eqb closeTime "00:00"
  then Int 24 else closeHour.

Section Diagnostic.
Context `{JsHost}.

(** The line of the section "Parsing Results" for one row, if any. *)
Definition check_row (row : cell * cell) : option check_line :=
  let '(dayName, hoursString) := row in
  if truthy dayName && truthy hoursString then
    let hoursStr := toString hoursString in
    match Str.split "-" hoursStr with
    | [part0; part1] =>
        let openTime := Str.trim part0 in
        let closeTime := Str.trim part1 in
        let openHour :=
          Str.parseInt (hd ""%string (Str.split ":" openTime)) in
        let closeHour := check_close closeTime in
        Some {| shown_day := dayName;
                shown_hours := hoursString;
                shown_open := Some openHour;
                shown_close := Some closeHour;
                shown_status :=
                  if negb (INum.isNaN openHour) && negb (INum.isNaN closeHour)
                  then CheckOK else CheckParseError |}
    | _ =>
        Some {| shown_day := dayName;
                shown_hours := hoursString;
                shown_open := None;
                shown_close := None;
                shown_status := CheckNoHyphen |}
    end
  else None.

(** The count "Days with data". *)
Definition validDays (rawData : list (cell * cell)) : nat :=
  fold_left
    (fun n row => if truthy row.1 && truthy row.2 then S n else n)
    rawData 0%nat.

(** [checkClubInfo()]: the parsing lines and the count, or nothing
    without a ClubInfo tab. *)
Definition checkClubInfo (ss : Spreadsheet)
    : option (list check_line * nat) :=
  info ← clubInfo ss;
  let rawData := A9_B25 info in
  Some (omap check_row rawData, validDays rawData).

End Diagnostic.

(** ** Predicates and reference definitions of the statements *)

(** The bounds are numbers, [earliestHour] is at most 24 and [latestHour]
    at least 0, and every stored interval lies between them: an hour at
    or after an opening is at or after [earliestHour], an hour before a
    closing is before [latestHour]. *)
Definition bounds_cover (st : hours_state) : Prop :=
  INum.isNaN (earliestHour st) = false
  /\ INum.isNaN (latestHour st) = false
  /\ INum.leb (earliestHour st) (Int 24) = true
  /\ INum.leb (Int 0) (latestHour st) = true
  /\ forall (name : string) (i : interval) (h : Z),
       dayOpeningHours st !! name = Some i ->
       (INum.leb (open i) (Int h) = true ->
        INum.leb (earliestHour st) (Int h) = true)
       /\ (INum.ltb (Int h) (close i) = true ->
           INum.ltb (Int h) (latestHour st) = true).


(** The last row of the report and the first, after the check of the range. *)
Definition lastHourRow_of (st : hours_state) : inum :=
  if INum.eqb (latestHour st) (Int 24) then Int 23
  else INum.add (latestHour st) (-1).

Definition row_bounds (st : hours_state) : inum * inum :=
  if INum.gtb (earliestHour st) (lastHourRow_of st) then (Int 8, Int 23)
  else (earliestHour st, lastHourRow_of st).

(** A grid of [rows] rows of [cols] cells. *)
Definition has_shape (rows cols : nat) (g : grid) : Prop :=
  length g = rows /\ Forall (fun row => length row = cols) g.

(** Every cell of the grid holds a number. *)
Definition numeric_grid (g : grid) : Prop :=
  Forall (Forall (fun v : cell => exists x : float, v = VNum x)) g.

(** The text holds a decimal digit. *)
Fixpoint has_digit (s : string) : bool :=
  match s with
  | EmptyString => false
  | String c s' => Str.is_digit c || has_digit s'
  end.

(** A clock time as text: the hour, a colon, two digits of minutes. *)
Definition two_digits (n : Z) : string :=
  String (Str.digit_char (n / 10))
    (String (Str.digit_char (n mod 10)) EmptyString).

Definition clock_text (h m : Z) : string :=
  Str.of_inum (Int h) +:+ ":" +:+ two_digits m.

(** The clock texts of hour [h] and minute [m] parse as expected: with
    am and pm in lower and upper case after a space, and as 24-hour
    text with and without a leading zero. *)
Definition clock_12_ok (h m : Z) : bool :=
  INum.eqb (parseHourFromTime (VStr (clock_text h m +:+ " am")))
    (Int (h mod 12))
  && INum.eqb (parseHourFromTime (VStr (clock_text h m +:+ " AM")))
       (Int (h mod 12))
  && INum.eqb (parseHourFromTime (VStr (clock_text h m +:+ " pm")))
       (Int (h mod 12 + 12))
  && INum.eqb (parseHourFromTime (VStr (clock_text h m +:+ " PM")))
       (Int (h mod 12 + 12)).

Definition clock_24_ok (h m : Z) : bool :=
  INum.eqb (parseHourFromTime (VStr (clock_text h m))) (Int h)
  && INum.eqb
       (parseHourFromTime (VStr (two_digits h +:+ ":" +:+ two_digits m)))
       (Int h).

(** The days of a month of the Gregorian calendar. *)
Definition is_leap_year (year : Z) : bool :=
  ((year mod 4 =? 0) && negb (year mod 100 =? 0)) || (year mod 400 =? 0).

Definition calendar_days (monthNum year : Z) : Z :=
  if monthNum =? 2 then (if is_leap_year year then 29 else 28)
  else if (monthNum =? 4) || (monthNum =? 6) || (monthNum =? 9)
          || (monthNum =? 11) then 30
  else 31.

(** For month [monthNum] of [year]: the script's count of days is the
    calendar's, and the month starts on the weekday after the last day
    of the month before. *)
Definition month_ok (year monthNum : Z) : bool :=
  (daysInMonth_of monthNum year =? calendar_days monthNum year)
  && (Calendar.dayOf year (monthNum - 1) 1
      =? (Calendar.dayOf year (monthNum - 2)
            (daysInMonth_of (monthNum - 1) year) + 1) mod 7).




(** ** Sample data

    A host that knows no conversion: no text is a date or a number.  The
    samples below hold dates as [Date] cells and hours as numbers, so the
    conversions are not called on them. *)

Definition strict_host : JsHost :=
  {| Number_toString := fun _ => "NaN"%string;
     Date_toString := fun _ => "Invalid Date"%string;
     Date_ofString := fun _ => InvalidDate;
     Date_ofNumber := fun _ => InvalidDate;
     Number_ofString := fun _ => nan;
     Date_valueOf := fun _ => nan |}.

Definition empty_cell : cell := VStr "".

(** A ClubInfo tab in the list format: two courts, open Monday to Friday
    from 9:00 to 17:00. *)
Definition weekdays_info : ClubInfo :=
  {| D5 := VNum 2;
     A9_B25 :=
       [(VStr "Monday", VStr "09:00-17:00");
        (VStr "Tuesday", VStr "09:00-17:00");
        (VStr "Wednesday", VStr "09:00-17:00");
        (VStr "Thursday", VStr "09:00-17:00");
        (VStr "Friday", VStr "09:00-17:00");
        (empty_cell, empty_cell)];
     D5_K7 := fun _ _ => empty_cell |}.

(** A ClubInfo tab whose only row cannot be parsed. *)
Definition unparseable_info : ClubInfo :=
  {| D5 := VNum 2;
     A9_B25 := [(VStr "Monday", VStr "morning-evening")];
     D5_K7 := fun _ _ => empty_cell |}.

(** A ClubInfo tab with nothing in A9:B25 and nothing in E6:K7. *)
Definition empty_info : ClubInfo :=
  {| D5 := VNum 2;
     A9_B25 := replicate 17 (empty_cell, empty_cell);
     D5_K7 := fun _ _ => empty_cell |}.

(** A row of a booking tab: the date in column D, the start time in
    column F, the hours in column H. *)
Definition booking_row (dateValue startTime hours : cell) : list cell :=
  [empty_cell; empty_cell; empty_cell; dateValue; empty_cell; startTime;
   empty_cell; hours].

Definition header_row : list cell :=
  [VStr "Id"; VStr "Name"; VStr "Court"; VStr "Date"; VStr "Day";
   VStr "Start"; VStr "End"; VStr "Hours"].

(** Monday 3 February 2025 *)
Definition feb3 : cell := VDate (DateOf 2025 1 3 0).

(** Three one-hour bookings at 9:00 on the same day, with two courts. *)
Definition feb_split : sheet :=
  [header_row;
   booking_row feb3 (VStr "9:00 am") (VNum 1);
   booking_row feb3 (VStr "9:00 am") (VNum 1);
   booking_row feb3 (VStr "9:00 am") (VNum 1);
   booking_row feb3 (VStr "10:00 am") (VNum 2)].

Definition feb_unsplit : sheet :=
  [header_row;
   booking_row feb3 (VStr "9:00 am") (VNum 3);
   booking_row feb3 (VStr "10:00 am") (VNum 2.0049)].

Definition feb_book : Spreadsheet :=
  {| clubInfo := Some weekdays_info;
     tabs := <["0225e" := feb_unsplit]> (<["0225e_2" := feb_split]> ∅) |}.

(** Formatting hour [h] and parsing the label gives [h] back. *)
Definition round_trip_ok (h : Z) : bool :=
  INum.eqb (parseHourFromTime (VStr (formatTimeAMPM (Int h)))) (Int h).

(** A ClubInfo tab in the grid format that closes at "00:00" on Sunday. *)
Definition grid_info : ClubInfo :=
  {| D5 := VNum 4;
     A9_B25 := replicate 17 (empty_cell, empty_cell);
     D5_K7 := fun r c =>
       match r, c with
       | 1%nat, S _ => VStr "7:00 AM"
       | 2%nat, 1%nat => VStr "00:00"
       | 2%nat, S _ => VStr "10:00 PM"
       | _, _ => empty_cell
       end |}.

(** Monday 3 March 2025 *)
Definition mar3 : cell := VDate (DateOf 2025 2 3 0).

(** * Properties *)

(** ** Facts about binary64 comparisons *)

Module FloatFacts.

Lemma SFcompare_antisym (x y : spec_float) :
  SFcompare y x = CompOpp <$> SFcompare x y.
Proof.
  destruct x as [sx|sx| |sx mx ex], y as [sy|sy| |sy my ey]; simpl;
    repeat match goal with s : bool |- _ => destruct s end;
    simpl; try reflexivity;
    rewrite (Z.compare_antisym ex ey);
    destruct (ex ?= ey) eqn:E; simpl; try reflexivity;
    rewrite (Pos.compare_cont_antisym mx my Eq); reflexivity.
Qed.

Lemma SFcompare_refl (x : spec_float) :
  x <> S754_nan -> SFcompare x x = Some Eq.
Proof.
  destruct x as [s|s| |s m e]; simpl; try congruence; intros _.
  - destruct s; reflexivity.
  - destruct s; rewrite Z.compare_refl, Pos.compare_cont_refl; reflexivity.
Qed.

Lemma is_nan_spec (x : float) :
  is_nan x = true <-> Prim2SF x = S754_nan.
Proof.
  unfold is_nan. rewrite FloatAxioms.eqb_spec. unfold SFeqb. split.
  - intros Hn. destruct (Prim2SF x) eqn:E; try reflexivity;
      rewrite SFcompare_refl in Hn by congruence; discriminate.
  - intros ->. reflexivity.
Qed.

Lemma is_nan_false (x : float) :
  is_nan x = false <-> Prim2SF x <> S754_nan.
Proof.
  rewrite <- is_nan_spec. destruct (is_nan x); split; congruence.
Qed.

Lemma is_nan_abs (x : float) : is_nan (abs x) = is_nan x.
Proof.
  apply eq_true_iff_eq. rewrite !is_nan_spec, abs_spec.
  destruct (Prim2SF x); simpl; split; congruence.
Qed.

(** On numbers, "not above" is "at most". *)
Lemma ltb_negb_leb (x y : float) :
  is_nan x = false -> is_nan y = false -> (y <? x)%float = negb (x <=? y)%float.
Proof.
  rewrite !is_nan_false, ltb_spec, leb_spec. unfold SFltb, SFleb.
  intros Hx Hy. rewrite (SFcompare_antisym (Prim2SF x) (Prim2SF y)).
  destruct (SFcompare (Prim2SF x) (Prim2SF y)) as [[]|] eqn:Ec;
    simpl; try reflexivity.
  destruct (Prim2SF x), (Prim2SF y); simpl in Ec; congruence.
Qed.

Lemma eqb_not_nan (x y : float) :
  (x =? y)%float = true -> is_nan x = false /\ is_nan y = false.
Proof.
  rewrite !is_nan_false, FloatAxioms.eqb_spec. unfold SFeqb.
  destruct (Prim2SF x), (Prim2SF y); simpl; try discriminate; split; congruence.
Qed.

(** A number equal to zero is not equal to a positive one. *)
Lemma eqb_zero_not_pos (x y : float) :
  (x =? 0)%float = true -> (x =? y)%float = true -> (0 <? y)%float = false.
Proof.
  rewrite !FloatAxioms.eqb_spec, ltb_spec. unfold SFeqb, SFltb.
  change (Prim2SF 0) with (S754_zero false).
  destruct (Prim2SF x) as [sx|sx| |sx mx ex], (Prim2SF y) as [sy|sy| |sy my ey];
    simpl; repeat match goal with s : bool |- _ => destruct s end; simpl; congruence.
Qed.

End FloatFacts.

(** ** Facts about strings *)

Lemma append_tail_inj (p a b : string) : p +:+ a = p +:+ b -> a = b.
Proof.
  induction p as [|c p IH]; simpl; [tauto|].
  intros Heq. injection Heq as Heq. auto.
Qed.

Lemma e_tab_is_not_source (monthDigits : string) :
  monthDigits +:+ "e" <> monthDigits +:+ "e_2".
Proof. intros Heq. apply append_tail_inj in Heq. discriminate. Qed.

(** ** Reconciliation of the two totals *)

Lemma validation_status_cases (a b : float) :
  (validation_status a b = "OK"%string
     <-> (0.01 <? abs (a - b))%float = false)
  /\ (validation_status a b = "Please Check"%string
     <-> (0.01 <? abs (a - b))%float = true).
Proof.
  unfold validation_status.
  destruct (0.01 <? abs (a - b))%float; split; split;
    intros; try reflexivity; discriminate.
Qed.

Lemma within_tolerance (a b : float) :
  is_nan (a - b) = false ->
  (0.01 <? abs (a - b))%float = false
  <-> (abs (a - b) <=? 0.01)%float = true.
Proof.
  intros Hn.
  rewrite (FloatFacts.ltb_negb_leb (abs (a - b)) 0.01%float).
  - destruct (abs (a - b) <=? 0.01)%float; simpl; split; congruence.
  - rewrite FloatFacts.is_nan_abs. exact Hn.
  - reflexivity.
Qed.

Section TableFacts.
Context `{JsHost}.

Lemma report_status (ss : Spreadsheet) (response : option string)
    (rep : report) :
  createHoursDaysTable ss response = Some rep ->
  status rep = validation_status (eTotal rep) (e2Total rep).
Proof.
  unfold createHoursDaysTable. intros Hrun.
  destruct response as [monthDigits|]; simpl in Hrun; [|discriminate].
  destruct (four_digits monthDigits); simpl in Hrun; [|discriminate].
  destruct (Str.parseInt _) as [| |monthNum|]; try discriminate.
  destruct (Str.parseInt _) as [| |year|]; try discriminate.
  destruct (clubInfo ss) as [info|]; simpl in Hrun; [|discriminate].
  destruct (calculateAvailableHours _ _ _) as [av|]; simpl in Hrun;
    [|discriminate].
  destruct (tabs ss !! (monthDigits +:+ "e_2")) as [src|]; simpl in Hrun;
    [|discriminate].
  destruct (aggregate _ _ _ _ _) as [g n].
  injection Hrun as <-. reflexivity.
Qed.

(** Whatever the tab of unsplit bookings holds, the report is built,
    and on the same grids. *)
Lemma report_whatever_e_tab (ss : Spreadsheet) (monthDigits : string)
    (rep : report) (eSheet : sheet) :
  createHoursDaysTable ss (Some monthDigits) = Some rep ->
  exists rep',
    createHoursDaysTable
      {| clubInfo := clubInfo ss;
         tabs := <[monthDigits +:+ "e" := eSheet]> (tabs ss) |}
      (Some monthDigits) = Some rep'
    /\ eTotal rep' = sumColumnH eSheet
    /\ e2Total rep' = e2Total rep
    /\ rep_timeRows rep' = rep_timeRows rep
    /\ rep_availableGrid rep' = rep_availableGrid rep
    /\ dataGrid rep' = dataGrid rep
    /\ processedCount rep' = processedCount rep.
Proof.
  unfold createHoursDaysTable. simpl. intros Hrun.
  destruct (four_digits monthDigits); simpl in *; [|discriminate].
  destruct (Str.parseInt _) as [| |monthNum|]; try discriminate.
  destruct (Str.parseInt _) as [| |year|]; try discriminate.
  destruct (clubInfo ss) as [info|]; simpl in *; [|discriminate].
  destruct (calculateAvailableHours _ _ _) as [av|]; simpl in *;
    [|discriminate].
  rewrite (lookup_insert_ne _ (monthDigits +:+ "e") (monthDigits +:+ "e_2"))
    by apply e_tab_is_not_source.
  destruct (tabs ss !! (monthDigits +:+ "e_2")) as [src|]; simpl in *;
    [|discriminate].
  rewrite lookup_insert_eq.
  destruct (aggregate _ _ _ _ _) as [g n].
  injection Hrun as <-. eexists. split; [reflexivity|]. simpl. tauto.
Qed.

End TableFacts.

(** C3.  The validation cell shows OK exactly when the two totals differ
    by no more than 0.01 and the mismatch notice ("Please Check")
    otherwise: the totals 120.0 and 120.0049 give OK, the totals 120.0
    and 121.0 give the notice.  The check is advisory: the status is one
    field of the report, and with any other tab of unsplit bookings, so
    with any other status, the report is still built and its grids are
    the same. *)
Theorem reconciliation_is_advisory `{JsHost} (ss : Spreadsheet)
    (monthDigits : string) (rep : report) :
  createHoursDaysTable ss (Some monthDigits) = Some rep ->
  (status rep = "OK"%string
     <-> (0.01 <? abs (eTotal rep - e2Total rep))%float = false)
  /\ (status rep = "Please Check"%string
     <-> (0.01 <? abs (eTotal rep - e2Total rep))%float = true)
  /\ (is_nan (eTotal rep - e2Total rep) = false ->
      status rep = "OK"%string
      <-> (abs (eTotal rep - e2Total rep) <=? 0.01)%float = true)
  /\ validation_status 120.0 120.0049 = "OK"%string
  /\ validation_status 120.0 121.0 = "Please Check"%string
  /\ forall eSheet : sheet,
       exists rep',
         createHoursDaysTable
           {| clubInfo := clubInfo ss;
              tabs := <[monthDigits +:+ "e" := eSheet]> (tabs ss) |}
           (Some monthDigits) = Some rep'
         /\ status rep'
            = validation_status (sumColumnH eSheet) (e2Total rep)
         /\ rep_timeRows rep' = rep_timeRows rep
         /\ rep_availableGrid rep' = rep_availableGrid rep
         /\ dataGrid rep' = dataGrid rep
         /\ processedCount rep' = processedCount rep.
Proof.
  intros Hrun. pose proof (report_status _ _ _ Hrun) as Hst.
  destruct (validation_status_cases (eTotal rep) (e2Total rep)) as [Hok Hno].
  rewrite <- Hst in Hok, Hno.
  split; [exact Hok|]. split; [exact Hno|].
  split; [intros Hn; rewrite Hok; apply within_tolerance, Hn|].
  split; [reflexivity|]. split; [reflexivity|].
  intros eSheet.
  destruct (report_whatever_e_tab _ _ _ eSheet Hrun)
    as (rep' & Hrun' & He & He2 & Ht & Ha & Hd & Hp).
  exists rep'. split; [exact Hrun'|].
  rewrite (report_status _ _ _ Hrun'), He, He2. tauto.
Qed.

Lemma reconciliation_is_advisory_witness :
  exists rep,
    @createHoursDaysTable strict_host feb_book (Some "0225"%string) = Some rep
    /\ status rep = "OK"%string
    /\ exists rep',
         @createHoursDaysTable strict_host
           {| clubInfo := clubInfo feb_book;
              tabs := <["0225e"%string := [header_row]]> (tabs feb_book) |}
           (Some "0225"%string) = Some rep'
         /\ status rep' = "Please Check"%string
         /\ dataGrid rep' = dataGrid rep.
Proof.
  destruct (@createHoursDaysTable strict_host feb_book (Some "0225"%string))
    as [rep|] eqn:Hrun; [|vm_compute in Hrun; discriminate].
  exists rep. split; [reflexivity|].
  destruct (@reconciliation_is_advisory strict_host feb_book "0225"%string
              rep Hrun) as (Hok & _ & _ & _ & _ & Hany).
  split.
  - apply Hok. vm_compute in Hrun. injection Hrun as <-. reflexivity.
  - destruct (Hany [header_row]) as (rep' & Hrun' & Hst & _ & _ & Hd & _).
    exists rep'. split; [exact Hrun'|]. split; [|exact Hd].
    rewrite Hst. vm_compute in Hrun. injection Hrun as <-. reflexivity.
Defined.


(** ** Validation of the tab pairs *)

Lemma verdict_cases (isEqual : bool) :
  (verdict isEqual = "EQUAL"%string <-> isEqual = true)
  /\ (verdict isEqual = "NOT EQUAL"%string <-> isEqual = false).
Proof. destruct isEqual; simpl; split; split; congruence. Qed.

(** C9.  For a pair of tabs that both exist, the line [monthHours]
    reports ends with EQUAL exactly when the two sums of column H are
    equal as numbers ([===]), and with NOT EQUAL otherwise.  No tolerance
    applies: there are two tabs whose sums differ by less than 0.01, so
    that the report's validation cell shows OK for them, and that
    [monthHours] reports as NOT EQUAL. *)
Theorem monthHours_compares_strictly `{JsHost} (tabs : gmap string sheet)
    (monthDigits name : string) (primarySheet secondarySheet : sheet) :
  tabs !! (monthDigits +:+ name) = Some primarySheet ->
  tabs !! (monthDigits +:+ name +:+ "_2") = Some secondarySheet ->
  (exists v : string,
     compare_pair tabs monthDigits name
     = name +:+ " comparison: "
         +:+ Number_toString (sumColumnH primarySheet) +:+ " vs "
         +:+ Number_toString (sumColumnH secondarySheet) +:+ " - " +:+ v
     /\ (v = "EQUAL"%string
         <-> (sumColumnH primarySheet =? sumColumnH secondarySheet)%float
             = true)
     /\ (v = "NOT EQUAL"%string
         <-> (sumColumnH primarySheet =? sumColumnH secondarySheet)%float
             = false))
  /\ (abs (sumColumnH feb_unsplit - sumColumnH feb_split) <=? 0.01)%float
     = true
  /\ validation_status (sumColumnH feb_unsplit) (sumColumnH feb_split)
     = "OK"%string
  /\ verdict (sumColumnH feb_unsplit =? sumColumnH feb_split)%float
     = "NOT EQUAL"%string.
Proof.
  intros Hp Hs. split.
  - exists (verdict (sumColumnH primarySheet =? sumColumnH secondarySheet)%float).
    split; [|apply verdict_cases].
    unfold compare_pair. rewrite Hp, Hs. reflexivity.
  - split; [|split]; vm_compute; reflexivity.
Qed.

Lemma monthHours_compares_strictly_witness :
  exists v : string,
    @compare_pair strict_host (tabs feb_book) "0225" "e"
    = ("e comparison: "
         +:+ @Number_toString strict_host (sumColumnH feb_unsplit) +:+ " vs "
         +:+ @Number_toString strict_host (sumColumnH feb_split) +:+ " - "
         +:+ v)%string
    /\ v = "NOT EQUAL"%string.
Proof.
  destruct (@monthHours_compares_strictly strict_host (tabs feb_book)
              "0225"%string "e"%string feb_unsplit feb_split
              eq_refl eq_refl)
    as [(v & Hline & _ & Hne) _].
  exists v. split; [exact Hline|].
  apply Hne. vm_compute. reflexivity.
Defined.

(** ** Capacity classification *)

Lemma ltb_not_eqb (a b : float) :
  (a <? b)%float = true -> (b =? a)%float = false.
Proof.
  rewrite ltb_spec, FloatAxioms.eqb_spec. unfold SFltb, SFeqb.
  rewrite (FloatFacts.SFcompare_antisym (Prim2SF a) (Prim2SF b)).
  destruct (SFcompare (Prim2SF a) (Prim2SF b)) as [[]|]; simpl; congruence.
Qed.

Section Classification.
Context `{JsHost}.

Lemma at_max_capacity_numbers (booked avail : float) :
  at_max_capacity (VNum booked) (VNum avail) = true
  <-> (booked =? avail)%float = true /\ (0 <? avail)%float = true.
Proof.
  unfold at_max_capacity, written, is_number_zero.
  destruct (booked =? 0)%float eqn:Hz; simpl.
  - split; [discriminate|]. intros [He Hp].
    rewrite (FloatFacts.eqb_zero_not_pos _ _ Hz He) in Hp. discriminate.
  - unfold is_zero. change zero with 0%float. rewrite Hz. simpl.
    rewrite !andb_true_iff, negb_true_iff. split.
    + tauto.
    + intros [He Hp]. destruct (FloatFacts.eqb_not_nan _ _ He). tauto.
Qed.

Lemma at_max_capacity_opt_numbers (booked avail : float) :
  at_max_capacity_opt (VNum booked) (VNum avail) = true
  <-> (booked =? avail)%float = true /\ (0 <? avail)%float = true.
Proof.
  unfold at_max_capacity_opt. simpl.
  rewrite !andb_true_iff, negb_true_iff, orb_false_iff. split.
  - tauto.
  - intros [He Hp]. destruct (FloatFacts.eqb_not_nan _ _ He) as [Hn _].
    repeat split; try assumption.
    unfold is_zero. change zero with 0%float.
    destruct (booked =? 0)%float eqn:Hz; [|reflexivity].
    rewrite (FloatFacts.eqb_zero_not_pos _ _ Hz He) in Hp. discriminate.
Qed.

Lemma is_closed_zero (availableHours : cell) :
  is_closed availableHours = true
  <-> exists x, availableHours = VNum x /\ (x =? 0)%float = true.
Proof.
  destruct availableHours as [s|x|b|d]; simpl; split;
    try discriminate; try (intros (x' & Hx & _); discriminate).
  - intros Hz. exists x. split; [reflexivity|exact Hz].
  - intros (x' & Hx & Hz). injection Hx as <-. exact Hz.
Qed.

End Classification.

(** C8.  Nothing keeps a booked value below the availability of its
    cell: in the sample book the cell of 9:00 on 3 February holds 3 booked
    hours against 2 available.  For numbers, a cell is marked at maximum
    capacity exactly when its booked value equals its availability and the
    availability is positive, in both variants of the script; it is not
    marked when the booked value exceeds the availability.  A cell is
    marked closed exactly when its availability is the number 0. *)
Theorem capacity_classification `{JsHost} :
  (exists rep booked avail,
     createHoursDaysTable feb_book (Some "0225"%string) = Some rep
     /\ dataGrid rep !! 0%nat ≫= (.!! 2%nat) = Some (VNum booked)
     /\ rep_availableGrid rep !! 0%nat ≫= (.!! 2%nat) = Some (VNum avail)
     /\ (avail <? booked)%float = true)
  /\ (forall booked avail : float,
        at_max_capacity (VNum booked) (VNum avail) = true
        <-> (booked =? avail)%float = true /\ (0 <? avail)%float = true)
  /\ (forall booked avail : float,
        at_max_capacity_opt (VNum booked) (VNum avail) = true
        <-> (booked =? avail)%float = true /\ (0 <? avail)%float = true)
  /\ (forall booked avail : float,
        (avail <? booked)%float = true ->
        at_max_capacity (VNum booked) (VNum avail) = false
        /\ at_max_capacity_opt (VNum booked) (VNum avail) = false)
  /\ (forall availableHours : cell,
        is_closed availableHours = true
        <-> exists x, availableHours = VNum x /\ (x =? 0)%float = true).
Proof.
  split; [|split; [|split; [|split]]].
  - destruct (createHoursDaysTable feb_book (Some "0225"%string))
      as [rep|] eqn:Hrun; [|vm_compute in Hrun; discriminate].
    exists rep, 3%float, 2%float. split; [reflexivity|].
    vm_compute in Hrun. injection Hrun as <-. vm_compute. auto.
  - apply at_max_capacity_numbers.
  - apply at_max_capacity_opt_numbers.
  - intros booked avail Hlt. apply ltb_not_eqb in Hlt. split.
    + destruct (at_max_capacity _ _) eqn:Hc; [|reflexivity].
      apply at_max_capacity_numbers in Hc. destruct Hc; congruence.
    + destruct (at_max_capacity_opt _ _) eqn:Hc; [|reflexivity].
      apply at_max_capacity_opt_numbers in Hc. destruct Hc; congruence.
  - apply is_closed_zero.
Qed.

Lemma capacity_classification_witness :
  @at_max_capacity strict_host (VNum 3) (VNum 2) = false
  /\ @at_max_capacity_opt strict_host (VNum 3) (VNum 2) = false.
Proof.
  destruct (@capacity_classification strict_host) as (_ & _ & _ & Hover & _).
  apply (Hover 3%float 2%float). reflexivity.
Defined.

(** ** The default schedule *)

Section ResolverFacts.
Context `{JsHost}.

Lemma defaults_cover_the_week (obj : gmap string interval) (name : string) :
  name ∈ dayNames ->
  fold_left
    (fun obj name => obj_set name {| open := Int 8; close := Int 23 |} obj)
    dayNames obj !! name
  = Some {| open := Int 8; close := Int 23 |}.
Proof.
  unfold dayNames. rewrite !elem_of_cons, elem_of_nil. cbn.
  intros Hname. repeat destruct Hname as [->|Hname]; try contradiction;
    by simplify_map_eq.
Qed.

Lemma use_defaults_when_invalid (st : hours_state) :
  no_valid_hours st = true ->
  earliestHour (use_defaults st) = Int 8
  /\ latestHour (use_defaults st) = Int 23
  /\ forall name, name ∈ dayNames ->
       dayOpeningHours (use_defaults st) !! name
       = Some {| open := Int 8; close := Int 23 |}.
Proof.
  intros Hbad. unfold use_defaults. rewrite Hbad. simpl.
  split; [reflexivity|]. split; [reflexivity|].
  intros name. apply defaults_cover_the_week.
Qed.

End ResolverFacts.

(** C1, as amended.  When, after parsing, [earliestHour] is still 24,
    [latestHour] is still 0 or no day was stored, the resolver gives each
    of the 7 weekdays open 8 and close 23, sets [earliestHour] to 8 and
    [latestHour] to 23, and the rows of the report are the hours 8
    through 22: the last row is [latestHour - 1]. *)
Theorem default_schedule `{JsHost} (info : ClubInfo) (monthNum year : Z) :
  no_valid_hours (parse_opening_hours info) = true ->
  exists av,
    calculateAvailableHours info monthNum year = Some av
    /\ (forall name, name ∈ dayNames ->
          av_dayOpeningHours av !! name
          = Some {| open := Int 8; close := Int 23 |})
    /\ av_earliestHour av = Int 8
    /\ av_latestHour av = Int 23
    /\ timeRows av = [8; 9; 10; 11; 12; 13; 14; 15; 16; 17; 18; 19; 20; 21; 22].
Proof.
  intros Hbad.
  destruct (use_defaults_when_invalid _ Hbad) as (He & Hl & Hdays).
  unfold calculateAvailableHours. rewrite He, Hl. simpl.
  eexists. split; [reflexivity|]. simpl. auto.
Qed.

Lemma default_schedule_witness :
  exists av,
    @calculateAvailableHours strict_host unparseable_info 2 2025 = Some av
    /\ av_dayOpeningHours av !! "Sunday"%string
       = Some {| open := Int 8; close := Int 23 |}
    /\ timeRows av = [8; 9; 10; 11; 12; 13; 14; 15; 16; 17; 18; 19; 20; 21; 22].
Proof.
  destruct (@default_schedule strict_host unparseable_info 2 2025 eq_refl)
    as (av & Hrun & Hdays & _ & _ & Hrows).
  exists av. split; [exact Hrun|]. split; [|exact Hrows].
  apply Hdays. unfold dayNames. apply elem_of_cons. left. reflexivity.
Defined.

(** C1 as stated fails: a ClubInfo tab whose only row cannot be parsed
    leaves [earliestHour] at 24, and the rows of the report are then the
    hours 8 through 22, not 8 through 23. *)
Lemma default_range_counterexample :
  no_valid_hours (@parse_opening_hours strict_host unparseable_info) = true
  /\ timeRows <$> @calculateAvailableHours strict_host unparseable_info 2 2025
     = Some [8; 9; 10; 11; 12; 13; 14; 15; 16; 17; 18; 19; 20; 21; 22]
  /\ timeRows <$> @calculateAvailableHours strict_host unparseable_info 2 2025
     <> Some [8; 9; 10; 11; 12; 13; 14; 15; 16; 17; 18; 19; 20; 21; 22; 23].
Proof.
  split; [reflexivity|].
  assert (Hrows : timeRows
            <$> @calculateAvailableHours strict_host unparseable_info 2 2025
          = Some [8; 9; 10; 11; 12; 13; 14; 15; 16; 17; 18; 19; 20; 21; 22])
    by (vm_compute; reflexivity).
  split; [exact Hrows|]. rewrite Hrows. discriminate.
Qed.

(** A ClubInfo tab with no opening hours at all is read in the grid
    format: every empty cell parses to hour 0, a close hour of 0 becomes
    24, and the safety check does not apply. *)
Lemma empty_config_is_open_all_day :
  no_valid_hours (@parse_opening_hours strict_host empty_info) = false
  /\ (forall name, name ∈ dayNames ->
        dayOpeningHours (@parse_opening_hours strict_host empty_info) !! name
        = Some {| open := Int 0; close := Int 24 |})
  /\ timeRows <$> @calculateAvailableHours strict_host empty_info 2 2025
     = Some (seqZ 0 24).
Proof.
  split; [vm_compute; reflexivity|]. split; [|vm_compute; reflexivity].
  intros name. unfold dayNames. rewrite !elem_of_cons, elem_of_nil.
  intros Hname. repeat destruct Hname as [->|Hname]; try contradiction;
    vm_compute; reflexivity.
Qed.

(** ** Time parsing *)

(** C2 fails on the code: the text "24:00" has the form [H:], and
    [parseHourFromTime] returns its hour digits as they are, 24, outside
    0..23.  So do "13 PM" (25) and the number 1.5 (36). *)
Theorem parseHourFromTime_out_of_range :
  parseHourFromTime (VStr "24:00") = Int 24
  /\ parseHourFromTime (VStr "13 PM") = Int 25
  /\ parseHourFromTime (VNum 1.5) = Int 36
  /\ ~ (exists h, parseHourFromTime (VStr "24:00") = Int h /\ 0 <= h <= 23).
Proof.
  split; [vm_compute; reflexivity|]. split; [vm_compute; reflexivity|].
  split; [vm_compute; reflexivity|].
  intros (h & Hparse & Hrange).
  assert (Hval : parseHourFromTime (VStr "24:00") = Int 24)
    by (vm_compute; reflexivity).
  rewrite Hval in Hparse. injection Hparse as <-. lia.
Qed.

Lemma INum_eqb_eq (a b : inum) : INum.eqb a b = true -> a = b.
Proof.
  destruct a, b; simpl; try discriminate; try reflexivity.
  intros Heq. apply Z.eqb_eq in Heq. congruence.
Qed.

(** C6.  For every hour [h] from 0 to 23, [parseHourFromTime] reads the
    label [formatTimeAMPM(h)] back as [h]; the labels of 0 and 12 are
    "12AM" and "12PM", and they are read back as 0 and 12. *)
Theorem format_parse_round_trip (h : Z) :
  0 <= h <= 23 ->
  parseHourFromTime (VStr (formatTimeAMPM (Int h))) = Int h
  /\ formatTimeAMPM (Int 0) = "12AM"%string
  /\ formatTimeAMPM (Int 12) = "12PM"%string
  /\ parseHourFromTime (VStr "12AM") = Int 0
  /\ parseHourFromTime (VStr "12PM") = Int 12.
Proof.
  intros Hh. split; [|repeat split; vm_compute; reflexivity].
  apply INum_eqb_eq. fold (round_trip_ok h).
  assert (Hall : forallb round_trip_ok (seqZ 0 24) = true)
    by (vm_compute; reflexivity).
  rewrite forallb_forall in Hall. apply Hall.
  apply list_elem_of_In, elem_of_seqZ. lia.
Qed.

Lemma format_parse_round_trip_witness :
  parseHourFromTime (VStr (formatTimeAMPM (Int 17))) = Int 17.
Proof.
  apply (format_parse_round_trip 17). lia.
Defined.

(** ** The midnight sentinel *)

Lemma traditional_close_midnight (closeTime : string) :
  closeTime = "24:00"%string \/ closeTime = "00:00"%string ->
  traditional_close closeTime = Int 24.
Proof. intros [-> | ->]; reflexivity. Qed.

Lemma dayNames_total (i : nat) :
  (i < 7)%nat ->
  dayNames !! i = Some (dayNames !!! i)
  /\ String.eqb (dayNames !!! i) "__proto__" = false.
Proof.
  intros Hi. do 7 (destruct i as [|i]; [split; reflexivity|]). lia.
Qed.

(** C4.  In the list format, a row whose close side is "24:00" or
    "00:00" gets the close hour 24, and that is what is stored for the
    day when the row is accepted.  In the grid format, a close cell
    holding "24:00" or "00:00" is stored as close hour 24.  In neither
    format is the stored close hour 0. *)
Theorem midnight_close_is_24 `{JsHost} (st : hours_state) :
  (forall (dayName hoursString : cell) (part0 part1 : string),
     truthy dayName = true ->
     truthy hoursString = true ->
     Str.split "-" (toString hoursString) = [part0; part1] ->
     Str.trim part1 = "24:00"%string \/ Str.trim part1 = "00:00"%string ->
     traditional_close (Str.trim part1) = Int 24
     /\ forall openHour : Z,
          Str.parseInt (hd ""%string (Str.split ":" (Str.trim part0)))
          = Int openHour ->
          toString dayName <> "__proto__"%string ->
          dayOpeningHours (traditional_row st (dayName, hoursString))
            !! toString dayName
          = Some {| open := Int openHour; close := Int 24 |})
  /\ (forall (range : nat -> nat -> cell) (i : nat),
        (i < 7)%nat ->
        range 2%nat (i + 1)%nat = VStr "24:00"
        \/ range 2%nat (i + 1)%nat = VStr "00:00" ->
        dayOpeningHours (grid_column range st i) !! (dayNames !!! i)
        = Some {| open := parseHourFromTime (range 1%nat (i + 1)%nat);
                  close := Int 24 |}).
Proof.
  split.
  - intros dayName hoursString part0 part1 Hday Hhours Hsplit Hclose.
    pose proof (traditional_close_midnight _ Hclose) as H24.
    split; [exact H24|]. intros openHour Hopen Hkey.
    unfold traditional_row. rewrite Hday, Hhours, Hsplit. simpl.
    rewrite Hopen, H24. simpl. unfold obj_set.
    destruct (String.eqb_spec (toString dayName) "__proto__");
      [contradiction|].
    apply lookup_insert_eq.
  - intros range i Hi Hclose.
    destruct (dayNames_total i Hi) as [_ Hkey].
    unfold grid_column, store_hours, obj_set. simpl. rewrite Hkey.
    rewrite lookup_insert_eq.
    destruct Hclose as [-> | ->]; reflexivity.
Qed.

Lemma midnight_close_is_24_witness :
  dayOpeningHours
    (@traditional_row strict_host initial_hours
       (VStr "Saturday", VStr "10:00 - 24:00")) !! "Saturday"%string
  = Some {| open := Int 10; close := Int 24 |}
  /\ dayOpeningHours
       (grid_column (D5_K7 grid_info) initial_hours 0)
       !! "Sunday"%string
     = Some {| open := Int 7; close := Int 24 |}.
Proof.
  destruct (@midnight_close_is_24 strict_host initial_hours) as [Hlist Hgrid].
  split.
  - destruct (Hlist (VStr "Saturday") (VStr "10:00 - 24:00")
                "10:00 "%string " 24:00"%string eq_refl eq_refl eq_refl
                (or_introl eq_refl)) as [_ Hstored].
    apply (Hstored 10 eq_refl). discriminate.
  - apply (Hgrid (D5_K7 grid_info) 0%nat); [lia|]. right. reflexivity.
Defined.

(** ** Rows the aggregation skips *)

Section AggregationFacts.
Context `{JsHost}.

(** A row that leaves every state as it is can be taken out of the
    source tab. *)
Lemma aggregate_without_row (monthNum year : Z) (timeRows : list Z)
    (daysInMonth : Z) (header : list cell) (before after : sheet)
    (rowData : list cell) :
  (forall st, add_booking monthNum year timeRows daysInMonth st rowData = st) ->
  aggregate monthNum year timeRows daysInMonth
    (header :: before ++ rowData :: after)
  = aggregate monthNum year timeRows daysInMonth (header :: before ++ after).
Proof.
  intros Hskip. unfold aggregate. simpl.
  rewrite !fold_left_app. simpl. rewrite Hskip. reflexivity.
Qed.

Lemma add_booking_other_month (monthNum year : Z) (timeRows : list Z)
    (daysInMonth : Z) (rowData : list cell) (dateValue : cell)
    (y m d h : Z) (st : grid * Z) :
  rowData !! 3%nat = Some dateValue ->
  newDate_of dateValue = DateOf y m d h ->
  m + 1 <> monthNum \/ y <> year ->
  add_booking monthNum year timeRows daysInMonth st rowData = st.
Proof.
  intros Hdate Hparse Hother. unfold add_booking. destruct st as [g n].
  rewrite Hdate, Hparse. simpl.
  destruct (rowData !! 5%nat) as [startTime|]; [|reflexivity].
  destruct (rowData !! 7%nat) as [hours|]; [|reflexivity].
  destruct (truthy dateValue && truthy startTime && truthy hours);
    [|reflexivity].
  destruct (Z.eqb_spec (m + 1) monthNum) as [Hm|Hm]; simpl; [|reflexivity].
  destruct (Z.eqb_spec y year) as [Hy|Hy]; simpl; [|reflexivity].
  destruct Hother; contradiction.
Qed.

Lemma add_booking_falsy (monthNum year : Z) (timeRows : list Z)
    (daysInMonth : Z) (rowData : list cell) (st : grid * Z) :
  truthy_opt (rowData !! 3%nat) = false
  \/ truthy_opt (rowData !! 5%nat) = false
  \/ truthy_opt (rowData !! 7%nat) = false ->
  add_booking monthNum year timeRows daysInMonth st rowData = st.
Proof.
  intros Hfalsy. unfold add_booking. destruct st as [g n].
  destruct (rowData !! 3%nat) as [dateValue|]; [|reflexivity].
  destruct (rowData !! 5%nat) as [startTime|]; [|reflexivity].
  destruct (rowData !! 7%nat) as [hours|]; [|reflexivity].
  simpl in Hfalsy.
  destruct Hfalsy as [-> | [-> | ->]]; simpl;
    rewrite ?andb_false_r; reflexivity.
Qed.

End AggregationFacts.

(** C7.  A booking row whose date is a valid date of another month or
    another year than the target leaves the data grid and the count of
    processed rows as they are: the aggregation gives the same result as
    on the source tab without that row. *)
Theorem other_month_rows_add_nothing `{JsHost} (monthNum year : Z)
    (timeRows : list Z) (daysInMonth : Z) (header : list cell)
    (before after : sheet) (rowData : list cell) (dateValue : cell)
    (y m d h : Z) :
  rowData !! 3%nat = Some dateValue ->
  newDate_of dateValue = DateOf y m d h ->
  m + 1 <> monthNum \/ y <> year ->
  (forall st, add_booking monthNum year timeRows daysInMonth st rowData = st)
  /\ aggregate monthNum year timeRows daysInMonth
       (header :: before ++ rowData :: after)
     = aggregate monthNum year timeRows daysInMonth
         (header :: before ++ after).
Proof.
  intros Hdate Hparse Hother.
  assert (Hskip : forall st,
             add_booking monthNum year timeRows daysInMonth st rowData = st)
    by (intros st; eapply add_booking_other_month; eassumption).
  split; [exact Hskip|]. apply aggregate_without_row, Hskip.
Qed.

Lemma other_month_rows_add_nothing_witness :
  @aggregate strict_host 2 2025 [9; 10] 28
    ([header_row; booking_row feb3 (VStr "9:00 am") (VNum 1)]
       ++ booking_row mar3 (VStr "9:00 am") (VNum 1)
       :: [booking_row feb3 (VStr "10:00 am") (VNum 2)])
  = @aggregate strict_host 2 2025 [9; 10] 28
      ([header_row; booking_row feb3 (VStr "9:00 am") (VNum 1)]
         ++ [booking_row feb3 (VStr "10:00 am") (VNum 2)]).
Proof.
  apply (@other_month_rows_add_nothing strict_host 2 2025 [9; 10] 28
           header_row [booking_row feb3 (VStr "9:00 am") (VNum 1)]
           [booking_row feb3 (VStr "10:00 am") (VNum 2)]
           (booking_row mar3 (VStr "9:00 am") (VNum 1)) mar3 2025 2 3 0
           eq_refl eq_refl).
  left. lia.
Defined.

(** C10.  A booking row whose date, start time or hours is falsy (or
    missing) is skipped: the data grid and the count of processed rows are
    as they would be without it.  So it is for a row whose hours are the
    number 0 and for a row whose start time is the number 0, midnight as
    a fraction of the day. *)
Theorem falsy_rows_are_skipped `{JsHost} (monthNum year : Z)
    (timeRows : list Z) (daysInMonth : Z) (header : list cell)
    (before after : sheet) :
  (forall rowData : list cell,
     truthy_opt (rowData !! 3%nat) = false
     \/ truthy_opt (rowData !! 5%nat) = false
     \/ truthy_opt (rowData !! 7%nat) = false ->
     (forall st,
        add_booking monthNum year timeRows daysInMonth st rowData = st)
     /\ aggregate monthNum year timeRows daysInMonth
          (header :: before ++ rowData :: after)
        = aggregate monthNum year timeRows daysInMonth
            (header :: before ++ after))
  /\ (forall dateValue startTime : cell,
        aggregate monthNum year timeRows daysInMonth
          (header :: before ++ booking_row dateValue startTime (VNum 0)
                  :: after)
        = aggregate monthNum year timeRows daysInMonth
            (header :: before ++ after))
  /\ (forall dateValue hours : cell,
        aggregate monthNum year timeRows daysInMonth
          (header :: before ++ booking_row dateValue (VNum 0) hours :: after)
        = aggregate monthNum year timeRows daysInMonth
            (header :: before ++ after)).
Proof.
  assert (Hrow : forall rowData : list cell,
     truthy_opt (rowData !! 3%nat) = false
     \/ truthy_opt (rowData !! 5%nat) = false
     \/ truthy_opt (rowData !! 7%nat) = false ->
     (forall st,
        add_booking monthNum year timeRows daysInMonth st rowData = st)
     /\ aggregate monthNum year timeRows daysInMonth
          (header :: before ++ rowData :: after)
        = aggregate monthNum year timeRows daysInMonth
            (header :: before ++ after)).
  { intros rowData Hfalsy.
    assert (Hskip : forall st,
               add_booking monthNum year timeRows daysInMonth st rowData = st)
      by (intros st; apply add_booking_falsy, Hfalsy).
    split; [exact Hskip|]. apply aggregate_without_row, Hskip. }
  split; [exact Hrow|]. split.
  - intros dateValue startTime. apply Hrow. right. right. reflexivity.
  - intros dateValue hours. apply Hrow. right. left. reflexivity.
Qed.

Lemma falsy_rows_are_skipped_witness :
  @aggregate strict_host 2 2025 [9; 10] 28
    ([header_row] ++ booking_row feb3 empty_cell (VNum 1) :: [])
  = @aggregate strict_host 2 2025 [9; 10] 28 ([header_row] ++ [])
  /\ @aggregate strict_host 2 2025 [9; 10] 28 [header_row]
     = (replicate 2 (replicate 28 (VNum 0)), 0).
Proof.
  destruct (@falsy_rows_are_skipped strict_host 2 2025 [9; 10] 28
              header_row [] []) as [Hrow _].
  split; [|reflexivity].
  apply (Hrow (booking_row feb3 empty_cell (VNum 1))).
  right. left. reflexivity.
Defined.

(** ** The availability grid *)

Lemma buildDayOfWeekCache_lookup (monthNum year day : Z) :
  1 <= day <= daysInMonth_of monthNum year ->
  buildDayOfWeekCache monthNum year !! day
  = Some {| dayName :=
              dayNames !!! Z.to_nat (Calendar.dayOf year (monthNum - 1) day);
            dayIndex := Calendar.dayOf year (monthNum - 1) day |}.
Proof.
  unfold buildDayOfWeekCache. intros Hday.
  assert (Hin : day ∈ seqZ 1 (daysInMonth_of monthNum year))
    by (apply elem_of_seqZ; lia).
  revert Hin. generalize (seqZ 1 (daysInMonth_of monthNum year)).
  generalize (∅ : gmap Z dayInfo).
  intros cache days. revert cache.
  induction days as [|d days IH] using rev_ind; intros cache Hin.
  - apply elem_of_nil in Hin. contradiction.
  - rewrite fold_left_app. simpl.
    destruct (decide (d = day)) as [->|Hne].
    + apply lookup_insert_eq.
    + rewrite lookup_insert_ne by exact Hne. apply IH.
      apply elem_of_app in Hin. destruct Hin as [Hin|Hin]; [exact Hin|].
      apply list_elem_of_singleton in Hin. congruence.
Qed.

Section GridFacts.
Context (hours : gmap string interval) (cache : gmap Z dayInfo) (cap : cell).

Lemma fill_slot_last (r : nat) (hour : Z) (n : nat) (g : grid) :
  fill_slot hours cache cap r hour (Z.of_nat (S n)) g
  = let g' := fill_slot hours cache cap r hour (Z.of_nat n) g in
    match cache !! (1 + Z.of_nat n) with
    | Some dayInfo =>
        grid_set g' r n (available_hours hours cap hour dayInfo)
    | None => g'
    end.
Proof.
  unfold fill_slot. rewrite seqZ_S, fold_left_app. simpl.
  replace (Z.to_nat (1 + Z.of_nat n - 1)) with n by lia. reflexivity.
Qed.

(** After the loop over [n] days, row [r] holds the value of every day
    up to [n]; the rest of the grid is as before. *)
Lemma fill_slot_spec (r : nat) (hour : Z) (n : nat) (g : grid) :
  let g' := fill_slot hours cache cap r hour (Z.of_nat n) g in
  length g' = length g
  /\ (forall r' : nat, r' <> r -> g' !! r' = g !! r')
  /\ (forall row : list cell,
        g !! r = Some row ->
        exists row' : list cell,
          g' !! r = Some row'
          /\ length row' = length row
          /\ (forall (c : nat) (dayInfo : dayInfo),
                (c < n)%nat -> (c < length row)%nat ->
                cache !! (1 + Z.of_nat c) = Some dayInfo ->
                row' !! c = Some (available_hours hours cap hour dayInfo))
          /\ (forall c : nat, (n <= c)%nat -> row' !! c = row !! c)).
Proof.
  induction n as [|n IH].
  - simpl. split; [reflexivity|]. split; [reflexivity|].
    intros row Hrow. exists row. split; [exact Hrow|].
    split; [reflexivity|]. split; [intros; lia|reflexivity].
  - rewrite fill_slot_last. cbv zeta in *.
    set (g1 := fill_slot hours cache cap r hour (Z.of_nat n) g) in *.
    destruct IH as (Hlen & Hother & Hrow).
    destruct (cache !! (1 + Z.of_nat n)) as [info|] eqn:Hcache.
    + unfold grid_set. split; [rewrite length_alter; exact Hlen|].
      split.
      * intros r' Hr'. rewrite list_lookup_alter_ne by congruence.
        apply Hother, Hr'.
      * intros row Hg. destruct (Hrow row Hg) as (row1 & Hg1 & Hl1 & Hdone & Hrest).
        exists (<[n := available_hours hours cap hour info]> row1).
        split; [rewrite list_lookup_alter_eq, Hg1; reflexivity|].
        split; [rewrite length_insert; exact Hl1|]. split.
        -- intros c di Hc Hcl Hdi. destruct (decide (c = n)) as [->|Hne].
           ++ rewrite list_lookup_insert_eq by lia. congruence.
           ++ rewrite list_lookup_insert_ne by congruence.
              apply Hdone; [lia|exact Hcl|exact Hdi].
        -- intros c Hc. rewrite list_lookup_insert_ne by lia.
           apply Hrest. lia.
    + split; [exact Hlen|]. split; [exact Hother|].
      intros row Hg. destruct (Hrow row Hg) as (row1 & Hg1 & Hl1 & Hdone & Hrest).
      exists row1. split; [exact Hg1|]. split; [exact Hl1|]. split.
      * intros c di Hc Hcl Hdi. destruct (decide (c = n)) as [->|Hne].
        -- congruence.
        -- apply Hdone; [lia|exact Hcl|exact Hdi].
      * intros c Hc. apply Hrest. lia.
Qed.

(** After the loop over the first [m] slots, each of these rows holds
    the values of its slot. *)
Lemma fill_rows_spec (timeRows : list Z) (n : nat) (g : grid) (m : nat) :
  let g' :=
    fold_left
      (fun g hourIndex =>
         fill_slot hours cache cap hourIndex (timeRows !!! hourIndex)
           (Z.of_nat n) g)
      (seq 0 m) g in
  length g' = length g
  /\ (forall r : nat, (m <= r)%nat -> g' !! r = g !! r)
  /\ (forall (r : nat) (row : list cell),
        (r < m)%nat -> g !! r = Some row ->
        exists row' : list cell,
          g' !! r = Some row'
          /\ forall (c : nat) (dayInfo : dayInfo),
               (c < n)%nat -> (c < length row)%nat ->
               cache !! (1 + Z.of_nat c) = Some dayInfo ->
               row' !! c
               = Some (available_hours hours cap (timeRows !!! r) dayInfo)).
Proof.
  induction m as [|m IH].
  - simpl. split; [reflexivity|]. split; [reflexivity|]. intros; lia.
  - rewrite seq_S, fold_left_app. simpl. cbv zeta in *.
    set (g1 := fold_left _ (seq 0 m) g) in *.
    destruct IH as (Hlen & Hrest & Hdone).
    destruct (fill_slot_spec m (timeRows !!! m) n g1)
      as (Hlen' & Hother & Hrow).
    split; [congruence|]. split.
    + intros r Hr. rewrite Hother by lia. apply Hrest. lia.
    + intros r row Hr Hg. destruct (decide (r = m)) as [->|Hne].
      * assert (Hg1 : g1 !! m = Some row) by (rewrite Hrest by lia; exact Hg).
        destruct (Hrow row Hg1) as (row' & Hg' & _ & Hvals & _).
        exists row'. split; [exact Hg'|exact Hvals].
      * rewrite Hother by congruence. apply Hdone; [lia|exact Hg].
Qed.

End GridFacts.

Lemma is_open_iff (openingInfo : option interval) (hour : Z) :
  is_open openingInfo hour = true
  <-> exists i, openingInfo = Some i
        /\ INum.leb (open i) (Int hour) = true
        /\ INum.ltb (Int hour) (close i) = true.
Proof.
  unfold is_open, INum.geb. destruct openingInfo as [i|]; split.
  - rewrite andb_true_iff. intros [Ho Hc]. exists i. auto.
  - intros (i' & Hi & Ho & Hc). injection Hi as <-. rewrite Ho, Hc. reflexivity.
  - discriminate.
  - intros (i' & Hi & _). discriminate.
Qed.

(** The cell of a slot and a day, after both loops. *)
Lemma fill_available_cell (hours : gmap string interval)
    (cache : gmap Z dayInfo) (cap : cell) (rows : list Z) (days : Z)
    (r : nat) (hour day : Z) (info : dayInfo) :
  rows !! r = Some hour ->
  1 <= day <= days ->
  cache !! day = Some info ->
  fill_available hours cache cap rows days
    (replicate (length rows) (replicate (Z.to_nat days) (VNum 0)))
    !! r ≫= (.!! Z.to_nat (day - 1))
  = Some (available_hours hours cap hour info).
Proof.
  intros Hhour Hday Hinfo.
  assert (Hr : (r < length rows)%nat) by (eapply lookup_lt_Some; eassumption).
  unfold fill_available.
  destruct (Z_of_nat_complete days) as [n ->]; [lia|].
  rewrite Nat2Z.id.
  destruct (fill_rows_spec hours cache cap rows n
              (replicate (length rows) (replicate n (VNum 0)))
              (length rows)) as (_ & _ & Hdone).
  destruct (Hdone r (replicate n (VNum 0)) Hr
              (lookup_replicate_2 _ _ _ Hr)) as (row' & Hg & Hvals).
  rewrite Hg. cbn [mbind option_bind].
  rewrite (Hvals (Z.to_nat (day - 1)) info).
  - rewrite (list_lookup_total_correct _ _ _ Hhour). reflexivity.
  - lia.
  - rewrite length_replicate. lia.
  - replace (1 + Z.of_nat (Z.to_nat (day - 1))) with day by lia.
    exact Hinfo.
Qed.

Lemma available_cell_value `{JsHost} (info : ClubInfo) (monthNum year : Z)
    (av : availability) (r : nat) (hour day : Z) :
  calculateAvailableHours info monthNum year = Some av ->
  timeRows av !! r = Some hour ->
  1 <= day <= daysInMonth av ->
  dayOfWeekCache av !! day
  = Some {| dayName :=
              dayNames !!! Z.to_nat (Calendar.dayOf year (monthNum - 1) day);
            dayIndex := Calendar.dayOf year (monthNum - 1) day |}
  /\ availableGrid av !! r ≫= (.!! Z.to_nat (day - 1))
     = Some (if is_open
                  (av_dayOpeningHours av
                     !! (dayNames
                           !!! Z.to_nat
                                 (Calendar.dayOf year (monthNum - 1) day)))
                  hour
             then maxHoursPerHour av else VNum 0).
Proof.
  unfold calculateAvailableHours.
  generalize (use_defaults (parse_opening_hours info)). intros st.
  destruct (if INum.gtb (earliestHour st) _ then _ else _)
    as [first last].
  destruct (hour_rows first last) as [rows|];
    cbn [mbind option_bind]; [|discriminate].
  intros Hrun. injection Hrun as <-.
  cbn [availableGrid timeRows daysInMonth maxHoursPerHour av_dayOpeningHours
       dayOfWeekCache].
  intros Hhour Hday.
  assert (Hcache := buildDayOfWeekCache_lookup monthNum year day Hday).
  split; [exact Hcache|].
  apply (fill_available_cell _ _ _ _ _ _ _ _ _ Hhour Hday Hcache).
Qed.

(** C5.  In the grid [calculateAvailableHours] returns, the cell of a
    slot and a day of the month holds [maxHoursPerHour] when the schedule
    has an entry for the weekday of that day with [open <= hour] and
    [hour < close], and 0 otherwise; in particular it holds 0 when the
    schedule has no entry for that weekday. *)
Theorem available_cell `{JsHost} (info : ClubInfo) (monthNum year : Z)
    (av : availability) (r : nat) (hour day : Z) :
  calculateAvailableHours info monthNum year = Some av ->
  timeRows av !! r = Some hour ->
  1 <= day <= daysInMonth av ->
  let weekday :=
    dayNames !!! Z.to_nat (Calendar.dayOf year (monthNum - 1) day) in
  let openingInfo := av_dayOpeningHours av !! weekday in
  let value := availableGrid av !! r ≫= (.!! Z.to_nat (day - 1)) in
  (dayName <$> dayOfWeekCache av !! day) = Some weekday
  /\ ((exists i, openingInfo = Some i
          /\ INum.leb (open i) (Int hour) = true
          /\ INum.ltb (Int hour) (close i) = true) ->
      value = Some (maxHoursPerHour av))
  /\ (~ (exists i, openingInfo = Some i
          /\ INum.leb (open i) (Int hour) = true
          /\ INum.ltb (Int hour) (close i) = true) ->
      value = Some (VNum 0))
  /\ (openingInfo = None -> value = Some (VNum 0)).
Proof.
  intros Hrun Hhour Hday.
  destruct (available_cell_value _ _ _ _ _ _ _ Hrun Hhour Hday)
    as [Hcache Hvalue].
  cbv zeta. rewrite Hcache, Hvalue. split; [reflexivity|]. split; [|split].
  - intros Hopen. apply is_open_iff in Hopen. rewrite Hopen. reflexivity.
  - intros Hclosed.
    destruct (is_open _ hour) eqn:Ho; [|reflexivity].
    apply is_open_iff in Ho. contradiction.
  - intros ->. reflexivity.
Qed.

Lemma available_cell_witness :
  exists av,
    @calculateAvailableHours strict_host weekdays_info 2 2025 = Some av
    /\ availableGrid av !! 0%nat ≫= (.!! 2%nat) = Some (VNum 2)
    /\ availableGrid av !! 0%nat ≫= (.!! 0%nat) = Some (VNum 0).
Proof.
  destruct (@calculateAvailableHours strict_host weekdays_info 2 2025)
    as [av|] eqn:Hrun; [|vm_compute in Hrun; discriminate].
  exists av. split; [reflexivity|].
  assert (Hrows : timeRows av !! 0%nat = Some 9)
    by (vm_compute in Hrun; injection Hrun as <-; reflexivity).
  assert (Hdays : daysInMonth av = 28)
    by (vm_compute in Hrun; injection Hrun as <-; reflexivity).
  assert (Hsched : av_dayOpeningHours av
            = dayOpeningHours
                (@parse_opening_hours strict_host weekdays_info))
    by (vm_compute in Hrun; injection Hrun as <-; vm_compute; reflexivity).
  assert (Hcap : maxHoursPerHour av = VNum 2)
    by (vm_compute in Hrun; injection Hrun as <-; reflexivity).
  split.
  - destruct (@available_cell strict_host weekdays_info 2 2025 av 0%nat 9 3
                Hrun Hrows ltac:(rewrite Hdays; lia)) as (_ & Hopen & _).
    rewrite <- Hcap. apply Hopen. rewrite Hsched.
    exists {| open := Int 9; close := Int 17 |}.
    split; [vm_compute; reflexivity|]. split; reflexivity.
  - destruct (@available_cell strict_host weekdays_info 2 2025 av 0%nat 9 1
                Hrun Hrows ltac:(rewrite Hdays; lia)) as (_ & _ & _ & Hnone).
    apply Hnone. rewrite Hsched. vm_compute. reflexivity.
Defined.

(** ** Order on integral numbers *)

Ltac inum_cases :=
  repeat match goal with
         | a : inum |- _ => destruct a
         end;
  simpl in *; try discriminate; try reflexivity;
  rewrite ?Z.ltb_lt, ?Z.leb_le, ?Z.ltb_ge, ?Z.leb_gt, ?Z.eqb_eq, ?Z.eqb_neq in *;
  try lia.

Lemma INum_ltb_leb_trans (a b c : inum) :
  INum.ltb a b = true -> INum.leb b c = true -> INum.leb a c = true.
Proof. inum_cases. Qed.

Lemma INum_ltb_trans (a b c : inum) :
  INum.ltb a b = true -> INum.ltb b c = true -> INum.ltb a c = true.
Proof. inum_cases. Qed.

Lemma INum_leb_total (a b : inum) :
  INum.isNaN a = false -> INum.isNaN b = false ->
  INum.ltb a b = false -> INum.leb b a = true.
Proof. inum_cases. Qed.

Lemma INum_leb_trans (a b c : inum) :
  INum.leb a b = true -> INum.leb b c = true -> INum.leb a c = true.
Proof. inum_cases. Qed.

Lemma INum_ltb_leb_trans' (a b c : inum) :
  INum.ltb a b = true -> INum.leb b c = true -> INum.ltb a c = true.
Proof. inum_cases. Qed.

Lemma INum_ltb_not_nan (a b : inum) :
  INum.ltb a b = true -> INum.isNaN a = false /\ INum.isNaN b = false.
Proof. inum_cases; auto. Qed.

Lemma INum_leb_not_nan (a b : inum) :
  INum.leb a b = true -> INum.isNaN a = false /\ INum.isNaN b = false.
Proof. inum_cases; auto. Qed.

(** ** What the parsed opening hours keep *)

Lemma store_hours_bounds_cover (name : string) (openHour closeHour : inum)
    (st : hours_state) :
  bounds_cover st -> bounds_cover (store_hours name openHour closeHour st).
Proof.
  intros (He & Hl & He24 & Hl0 & Hin). unfold bounds_cover, store_hours. simpl.
  assert (He' : forall h,
             INum.leb (earliestHour st) (Int h) = true
             \/ INum.leb openHour (Int h) = true ->
             INum.leb
               (if INum.ltb openHour (earliestHour st) then openHour
                else earliestHour st) (Int h) = true).
  { intros h Hh. destruct (INum.ltb openHour (earliestHour st)) eqn:Hlt.
    - destruct Hh as [Hh|Hh]; [|exact Hh].
      eapply INum_ltb_leb_trans; eassumption.
    - destruct Hh as [Hh|Hh]; [exact Hh|].
      eapply INum_leb_trans; [|exact Hh].
      apply INum_leb_total; [apply (INum_leb_not_nan _ _ Hh)|exact He|exact Hlt]. }
  assert (Hl' : forall h,
             INum.ltb (Int h) (latestHour st) = true
             \/ INum.ltb (Int h) closeHour = true ->
             INum.ltb (Int h)
               (if INum.gtb closeHour (latestHour st) then closeHour
                else latestHour st) = true).
  { intros h Hh. unfold INum.gtb.
    destruct (INum.ltb (latestHour st) closeHour) eqn:Hlt.
    - destruct Hh as [Hh|Hh]; [|exact Hh].
      eapply INum_ltb_trans; eassumption.
    - destruct Hh as [Hh|Hh]; [exact Hh|].
      eapply INum_ltb_leb_trans'; [exact Hh|].
      apply INum_leb_total; [exact Hl|apply (INum_ltb_not_nan _ _ Hh)|exact Hlt]. }
  split; [|split; [|split; [|split]]].
  - destruct (INum.ltb openHour (earliestHour st)) eqn:Hlt; [|exact He].
    apply (INum_ltb_not_nan _ _ Hlt).
  - unfold INum.gtb.
    destruct (INum.ltb (latestHour st) closeHour) eqn:Hlt; [|exact Hl].
    apply (INum_ltb_not_nan _ _ Hlt).
  - destruct (INum.ltb openHour (earliestHour st)) eqn:Hlt; [|exact He24].
    eapply INum_ltb_leb_trans; eassumption.
  - unfold INum.gtb.
    destruct (INum.ltb (latestHour st) closeHour) eqn:Hlt; [|exact Hl0].
    clear -Hl0 Hlt. destruct (latestHour st), closeHour; inum_cases.
  - intros name' i h. unfold obj_set.
    destruct (String.eqb name "__proto__").
    + intros Hi. destruct (Hin name' i h Hi) as [Ho Hc].
      split; intros Hh; [apply He'|apply Hl']; left; auto.
    + rewrite lookup_insert. destruct (decide (name = name')) as [_|_].
      * intros Hi. injection Hi as <-. simpl.
        split; intros Hh; [apply He'|apply Hl']; right; exact Hh.
      * intros Hi. destruct (Hin name' i h Hi) as [Ho Hc].
        split; intros Hh; [apply He'|apply Hl']; left; auto.
Qed.

Lemma initial_hours_bounds_cover : bounds_cover initial_hours.
Proof.
  unfold bounds_cover, initial_hours. simpl. repeat split; try reflexivity;
    rewrite lookup_empty in *; discriminate.
Qed.

Lemma fold_left_preserves {A B} (P : A -> Prop) (f : A -> B -> A)
    (l : list B) (a : A) :
  (forall a b, P a -> P (f a b)) -> P a -> P (fold_left f l a).
Proof. intros Hf. revert a. induction l as [|b l IH]; simpl; auto. Qed.

Section ParseFacts.
Context `{JsHost}.

Lemma traditional_row_bounds_cover (st : hours_state) (row : cell * cell) :
  bounds_cover st -> bounds_cover (traditional_row st row).
Proof.
  intros Hst. unfold traditional_row. destruct row as [dayName hoursString].
  destruct (truthy dayName && truthy hoursString); [|exact Hst].
  destruct (Str.split "-" (toString hoursString)) as [|p0 [|p1 [|p2 ps]]];
    try exact Hst.
  destruct (negb _ && negb _); [|exact Hst].
  apply store_hours_bounds_cover, Hst.
Qed.

Lemma parse_opening_hours_bounds_cover (info : ClubInfo) :
  bounds_cover (parse_opening_hours info).
Proof.
  unfold parse_opening_hours.
  destruct (hasTraditionalFormat (A9_B25 info)).
  - apply fold_left_preserves; [|apply initial_hours_bounds_cover].
    intros st row. apply traditional_row_bounds_cover.
  - apply fold_left_preserves; [|apply initial_hours_bounds_cover].
    intros st i Hst. unfold grid_column.
    apply store_hours_bounds_cover, Hst.
Qed.

End ParseFacts.


(** ** The rows of the report *)

Section RowFacts.
Context `{JsHost}.

(** [calculateAvailableHours] in one equation. *)
Lemma calculateAvailableHours_eq (info : ClubInfo) (monthNum year : Z) :
  calculateAvailableHours info monthNum year
  = let st := use_defaults (parse_opening_hours info) in
    match hour_rows (row_bounds st).1 (row_bounds st).2 with
    | Some rows =>
        Some {| availableGrid :=
                  fill_available (dayOpeningHours st)
                    (buildDayOfWeekCache monthNum year) (D5 info) rows
                    (daysInMonth_of monthNum year)
                    (replicate (length rows)
                       (replicate (Z.to_nat (daysInMonth_of monthNum year))
                          (VNum 0)));
                timeRows := rows;
                daysInMonth := daysInMonth_of monthNum year;
                maxHoursPerHour := D5 info;
                av_earliestHour := (row_bounds st).1;
                av_latestHour := latestHour st;
                av_dayOpeningHours := dayOpeningHours st;
                dayOfWeekCache := buildDayOfWeekCache monthNum year |}
    | None => None
    end.
Proof.
  unfold calculateAvailableHours, row_bounds, lastHourRow_of. cbv zeta.
  generalize (use_defaults (parse_opening_hours info)). intros st.
  destruct (INum.gtb _ _); reflexivity.
Qed.

Lemma use_defaults_bounds (st : hours_state) :
  INum.leb (earliestHour st) (Int 24) = true ->
  INum.leb (Int 0) (latestHour st) = true ->
  INum.leb (earliestHour (use_defaults st)) (Int 24) = true
  /\ INum.leb (Int 0) (latestHour (use_defaults st)) = true.
Proof.
  intros He Hl. unfold use_defaults.
  destruct (no_valid_hours st); simpl; auto.
Qed.

(** The rows for bounds that are numbers: the hours from the first bound
    to the last, or 8 to 23 when there is none. *)
Lemma hour_rows_of_bounds (st : hours_state) (rows : list Z) :
  INum.leb (earliestHour st) (Int 24) = true ->
  INum.leb (Int 0) (latestHour st) = true ->
  hour_rows (row_bounds st).1 (row_bounds st).2 = Some rows ->
  exists e l : Z,
    earliestHour st = Int e
    /\ latestHour st = Int l
    /\ (row_bounds st).1 = Int (if e <=? l - 1 then e else 8)
    /\ rows = (if e <=? l - 1 then seqZ e (l - e) else seqZ 8 16).
Proof.
  unfold row_bounds, lastHourRow_of, hour_rows, INum.gtb.
  destruct (earliestHour st) as [| |e|], (latestHour st) as [| |l|];
    simpl; try discriminate; intros _ _;
    try (destruct (l =? 24); simpl; discriminate).
  assert (Hlast : (if l =? 24 then Int 23 else Int (l + -1)) = Int (l - 1)).
  { destruct (Z.eqb_spec l 24) as [->|_]; f_equal; lia. }
  rewrite Hlast. unfold INum.ltb.
  destruct (Z.ltb_spec (l - 1) e) as [Hlt|Hge]; cbn [fst snd INum.leb].
  - intros Hrows. injection Hrows as <-. exists e, l.
    destruct (Z.leb_spec e (l - 1)); [exfalso; lia|]. auto.
  - destruct (Z.leb_spec e (l - 1)) as [_|Hgt]; [|exfalso; lia].
    intros Hrows. injection Hrows as <-. exists e, l.
    destruct (Z.leb_spec e (l - 1)) as [_|Hgt]; [|exfalso; lia].
    do 3 (split; [reflexivity|]). f_equal. lia.
Qed.

End RowFacts.


Section RowTheorems.
Context `{JsHost}.

Lemma defaults_bounds (info : ClubInfo) :
  INum.leb (earliestHour (use_defaults (parse_opening_hours info))) (Int 24)
  = true
  /\ INum.leb (Int 0) (latestHour (use_defaults (parse_opening_hours info)))
     = true.
Proof.
  destruct (parse_opening_hours_bounds_cover info) as (_ & _ & He & Hl & _).
  apply use_defaults_bounds; assumption.
Qed.

Lemma calculateAvailableHours_inv (info : ClubInfo) (monthNum year : Z)
    (av : availability) :
  calculateAvailableHours info monthNum year = Some av ->
  let st := use_defaults (parse_opening_hours info) in
  hour_rows (row_bounds st).1 (row_bounds st).2 = Some (timeRows av)
  /\ av_earliestHour av = (row_bounds st).1
  /\ av_latestHour av = latestHour st
  /\ av_dayOpeningHours av = dayOpeningHours st
  /\ daysInMonth av = daysInMonth_of monthNum year
  /\ maxHoursPerHour av = D5 info
  /\ dayOfWeekCache av = buildDayOfWeekCache monthNum year
  /\ availableGrid av
     = fill_available (dayOpeningHours st)
         (buildDayOfWeekCache monthNum year) (D5 info) (timeRows av)
         (daysInMonth_of monthNum year)
         (replicate (length (timeRows av))
            (replicate (Z.to_nat (daysInMonth_of monthNum year)) (VNum 0))).
Proof.
  rewrite calculateAvailableHours_eq. cbv zeta.
  destruct (hour_rows _ _) as [rows|]; [|discriminate].
  intros Hrun. injection Hrun as <-. repeat split.
Qed.

Lemma timeRows_nonempty (info : ClubInfo) (monthNum year : Z)
    (av : availability) :
  calculateAvailableHours info monthNum year = Some av -> timeRows av <> [].
Proof.
  intros Hrun.
  destruct (calculateAvailableHours_inv _ _ _ _ Hrun) as (Hrows & _).
  destruct (defaults_bounds info) as [Hb1 Hb2].
  destruct (hour_rows_of_bounds _ _ Hb1 Hb2 Hrows)
    as (e & l & _ & _ & _ & Hlist).
  rewrite Hlist. destruct (Z.leb_spec e (l - 1)); [|discriminate].
  rewrite seqZ_cons by lia. discriminate.
Qed.

(** X1.  The rows of the report.  The hours are consecutive, from
    [earliestHour] to [latestHour - 1], or from 8 to 23 when that range
    is empty; there is always at least one row. *)
Theorem timeRows_contiguous (info : ClubInfo) (monthNum year : Z)
    (av : availability) :
  calculateAvailableHours info monthNum year = Some av ->
  exists e l : Z,
    earliestHour (use_defaults (parse_opening_hours info)) = Int e
    /\ av_latestHour av = Int l
    /\ av_earliestHour av = Int (if e <=? l - 1 then e else 8)
    /\ timeRows av = (if e <=? l - 1 then seqZ e (l - e) else seqZ 8 16)
    /\ timeRows av <> [].
Proof.
  intros Hrun.
  destruct (calculateAvailableHours_inv _ _ _ _ Hrun)
    as (Hrows & He & Hl & _).
  destruct (defaults_bounds info) as [Hb1 Hb2].
  destruct (hour_rows_of_bounds _ _ Hb1 Hb2 Hrows)
    as (e & l & Hse & Hsl & Hfirst & Hlist).
  exists e, l. rewrite He, Hl, Hfirst, Hlist.
  do 4 (split; [first [assumption | reflexivity]|]).
  destruct (Z.leb_spec e (l - 1)); [|discriminate].
  rewrite seqZ_cons by lia. discriminate.
Qed.

Lemma use_defaults_cover (st : hours_state) (name : string) (i : interval)
    (h : Z) :
  bounds_cover st ->
  name ∈ dayNames ->
  dayOpeningHours (use_defaults st) !! name = Some i ->
  (INum.leb (open i) (Int h) = true ->
   INum.leb (earliestHour (use_defaults st)) (Int h) = true)
  /\ (INum.ltb (Int h) (close i) = true ->
      INum.ltb (Int h) (latestHour (use_defaults st)) = true).
Proof.
  intros (_ & _ & _ & _ & Hin) Hname Hi.
  destruct (no_valid_hours st) eqn:Hbad.
  - destruct (use_defaults_when_invalid st Hbad) as (He & Hl & Hdays).
    rewrite (Hdays name Hname) in Hi. injection Hi as <-.
    rewrite He, Hl. simpl. auto.
  - unfold use_defaults in *. rewrite Hbad in *. apply (Hin name i h Hi).
Qed.

(** X2.  The rows cover the opening hours.  Whenever the schedule has a
    weekday open at an hour, that hour is a row of the report. *)
Theorem timeRows_cover_opening_hours (info : ClubInfo) (monthNum year : Z)
    (av : availability) (name : string) (i : interval) (h : Z) :
  calculateAvailableHours info monthNum year = Some av ->
  name ∈ dayNames ->
  av_dayOpeningHours av !! name = Some i ->
  INum.leb (open i) (Int h) = true ->
  INum.ltb (Int h) (close i) = true ->
  h ∈ timeRows av.
Proof.
  intros Hrun Hname Hi Hopen Hclose.
  destruct (calculateAvailableHours_inv _ _ _ _ Hrun)
    as (Hrows & _ & _ & Hsched & _).
  destruct (defaults_bounds info) as [Hb1 Hb2].
  destruct (hour_rows_of_bounds _ _ Hb1 Hb2 Hrows)
    as (e & l & Hse & Hsl & _ & Hlist).
  rewrite Hsched in Hi.
  destruct (use_defaults_cover _ name i h
              (parse_opening_hours_bounds_cover info) Hname Hi) as [He Hl].
  specialize (He Hopen). specialize (Hl Hclose).
  rewrite Hse in He. rewrite Hsl in Hl. simpl in He, Hl.
  apply Z.leb_le in He. apply Z.ltb_lt in Hl.
  rewrite Hlist. destruct (Z.leb_spec e (l - 1)); [|exfalso; lia].
  apply elem_of_seqZ. lia.
Qed.

(** ** The list format always gives a result *)









End RowTheorems.


(** ** The month code *)

Lemma is_digit_cases (c : ascii) :
  Str.is_digit c = true ->
  In c ["0"; "1"; "2"; "3"; "4"; "5"; "6"; "7"; "8"; "9"]%char.
Proof.
  destruct c as [[] [] [] [] [] [] [] []]; vm_compute;
    intros Hd; try discriminate; tauto.
Qed.

Lemma two_digits_parse (a b : ascii) :
  Str.is_digit a = true -> Str.is_digit b = true ->
  exists m : Z,
    Str.parseInt (String a (String b EmptyString)) = Int m
    /\ Str.parseInt (String "2" (String "0" (String a (String b EmptyString))))
       = Int (2000 + m)
    /\ 0 <= m <= 99.
Proof.
  intros Ha Hb. apply is_digit_cases in Ha, Hb. simpl in Ha, Hb.
  repeat destruct Ha as [<-|Ha]; try contradiction;
    repeat destruct Hb as [<-|Hb]; try contradiction;
    eexists; (split; [vm_compute; reflexivity|]);
    (split; [vm_compute; reflexivity|]); lia.
Qed.


(** X4.  The month code.  An input of four digits gives a month number
    between 0 and 99 and a year between 2000 and 2099; the month number
    is not checked against 1..12. *)
Theorem month_code_range (monthDigits : string) :
  four_digits monthDigits = true ->
  exists monthNum year : Z,
    Str.parseInt (String.substring 0 2 monthDigits) = Int monthNum
    /\ Str.parseInt ("20" +:+ String.substring 2 2 monthDigits) = Int year
    /\ 0 <= monthNum <= 99
    /\ 2000 <= year <= 2099.
Proof.
  unfold four_digits.
  destruct monthDigits as [|a [|b [|c [|d [|x rest]]]]]; try discriminate.
  rewrite !andb_true_iff. intros [[[Ha Hb] Hc] Hd].
  destruct (two_digits_parse a b Ha Hb) as (m & Hm & _ & Hmr).
  destruct (two_digits_parse c d Hc Hd) as (y & _ & Hy & Hyr).
  exists m, (2000 + y). cbn [String.substring String.append].
  split; [exact Hm|]. split; [exact Hy|]. lia.
Qed.


(** ** The shape of the grids *)

Lemma has_shape_zeros (rows cols : nat) :
  has_shape rows cols (replicate rows (replicate cols (VNum 0))).
Proof.
  split; [apply length_replicate|].
  apply Forall_replicate, length_replicate.
Qed.

Lemma has_shape_alter (rows cols : nat) (f : list cell -> list cell)
    (r : nat) (g : grid) :
  (forall row, length (f row) = length row) ->
  has_shape rows cols g -> has_shape rows cols (alter f r g).
Proof.
  intros Hf [Hlen Hrows]. split; [rewrite length_alter; exact Hlen|].
  apply Forall_alter; [exact Hrows|].
  intros row _ Hrow. rewrite Hf. exact Hrow.
Qed.

Lemma fill_available_shape (hours : gmap string interval)
    (cache : gmap Z dayInfo) (cap : cell) (rowsZ : list Z) (days : Z)
    (rows cols : nat) (g : grid) :
  has_shape rows cols g ->
  has_shape rows cols (fill_available hours cache cap rowsZ days g).
Proof.
  unfold fill_available. apply fold_left_preserves.
  intros g1 hourIndex. unfold fill_slot. apply fold_left_preserves.
  intros g2 day Hg2. cbv zeta. destruct (cache !! day); [|exact Hg2].
  unfold grid_set. apply has_shape_alter; [|exact Hg2].
  intros row. apply length_insert.
Qed.

Section ShapeFacts.
Context `{JsHost}.

Lemma add_booking_shape (monthNum year : Z) (rowsZ : list Z) (days : Z)
    (rows cols : nat) (st : grid * Z) (rowData : list cell) :
  has_shape rows cols st.1 ->
  has_shape rows cols (add_booking monthNum year rowsZ days st rowData).1.
Proof.
  intros Hst. unfold add_booking. destruct st as [g n]. simpl in Hst.
  destruct (rowData !! 3%nat) as [dateValue|]; [|exact Hst].
  destruct (rowData !! 5%nat) as [startTime|]; [|exact Hst].
  destruct (rowData !! 7%nat) as [hours|]; [|exact Hst].
  destruct (truthy dateValue && truthy startTime && truthy hours);
    [|exact Hst].
  destruct (INum.eqb _ _ && INum.eqb _ _); [|exact Hst].
  destruct (INum.add (getDate (newDate_of dateValue)) (-1))
    as [| |di|]; try exact Hst.
  destruct ((0 <=? _) && (0 <=? di) && (di <? days)); [|exact Hst].
  cbn [fst]. unfold grid_add. apply has_shape_alter; [|exact Hst].
  intros row. apply length_alter.
Qed.

Lemma aggregate_shape (monthNum year : Z) (rowsZ : list Z) (days : Z)
    (sourceData : sheet) :
  has_shape (length rowsZ) (Z.to_nat days)
    (aggregate monthNum year rowsZ days sourceData).1.
Proof.
  unfold aggregate.
  apply (fold_left_preserves
           (fun st => has_shape (length rowsZ) (Z.to_nat days) st.1)).
  - intros st rowData. apply add_booking_shape.
  - apply has_shape_zeros.
Qed.

(** What a report is made of. *)
Lemma createHoursDaysTable_inv (ss : Spreadsheet) (response : option string)
    (rep : report) :
  createHoursDaysTable ss response = Some rep ->
  exists (monthDigits : string) (monthNum year : Z) (info : ClubInfo)
         (av : availability) (sourceSheet : sheet),
    response = Some monthDigits
    /\ four_digits monthDigits = true
    /\ Str.parseInt (String.substring 0 2 monthDigits) = Int monthNum
    /\ Str.parseInt ("20" +:+ String.substring 2 2 monthDigits) = Int year
    /\ clubInfo ss = Some info
    /\ calculateAvailableHours info monthNum year = Some av
    /\ tabs ss !! (monthDigits +:+ "e_2") = Some sourceSheet
    /\ rep_timeRows rep
       = (if (length (timeRows av) =? 0)%nat then default_timeRows
          else timeRows av)
    /\ rep_daysInMonth rep = daysInMonth av
    /\ rep_availableGrid rep = availableGrid av
    /\ (dataGrid rep, processedCount rep)
       = aggregate monthNum year (rep_timeRows rep) (daysInMonth av)
           sourceSheet
    /\ e2Total rep = sumColumnH sourceSheet.
Proof.
  unfold createHoursDaysTable. intros Hrun.
  destruct response as [monthDigits|]; simpl in Hrun; [|discriminate].
  destruct (four_digits monthDigits) eqn:Hfour; simpl in Hrun;
    [|discriminate].
  destruct (Str.parseInt (String.substring 0 2 monthDigits))
    as [| |monthNum|] eqn:Hm; try discriminate.
  destruct (Str.parseInt ("20" +:+ String.substring 2 2 monthDigits))
    as [| |year|] eqn:Hy; try discriminate.
  destruct (clubInfo ss) as [info|]; simpl in Hrun; [|discriminate].
  destruct (calculateAvailableHours info monthNum year) as [av|] eqn:Hav;
    simpl in Hrun; [|discriminate].
  destruct (tabs ss !! (monthDigits +:+ "e_2")) as [src|] eqn:Hsrc;
    simpl in Hrun; [|discriminate].
  destruct (aggregate _ _ _ _ _) as [g n] eqn:Hagg.
  injection Hrun as <-.
  exists monthDigits, monthNum, year, info, av, src. simpl.
  rewrite Hagg. repeat split; first [assumption | reflexivity].
Qed.

(** X5.  The shape of the grids.  In a report, the availability grid and
    the data grid both have one row per hour of the report and one
    column per day of the month. *)
Theorem grids_have_the_same_shape (ss : Spreadsheet)
    (response : option string) (rep : report) :
  createHoursDaysTable ss response = Some rep ->
  has_shape (length (rep_timeRows rep)) (Z.to_nat (rep_daysInMonth rep))
    (rep_availableGrid rep)
  /\ has_shape (length (rep_timeRows rep)) (Z.to_nat (rep_daysInMonth rep))
       (dataGrid rep).
Proof.
  intros Hrun.
  destruct (createHoursDaysTable_inv _ _ _ Hrun)
    as (md & monthNum & year & info & av & src & _ & _ & _ & _ & _ & Hav
        & _ & Hrows & Hdays & Hgrid & Hagg & _).
  pose proof (timeRows_nonempty _ _ _ _ Hav) as Hne.
  assert (Hsame : rep_timeRows rep = timeRows av).
  { rewrite Hrows. destruct (timeRows av); [contradiction|reflexivity]. }
  destruct (calculateAvailableHours_inv _ _ _ _ Hav)
    as (_ & _ & _ & _ & Hd & _ & _ & Hfill).
  split.
  - rewrite Hgrid, Hfill, Hsame, Hdays, Hd.
    apply fill_available_shape, has_shape_zeros.
  - replace (dataGrid rep)
      with (aggregate monthNum year (rep_timeRows rep) (daysInMonth av)
              src).1 by (rewrite <- Hagg; reflexivity).
    rewrite Hdays. apply aggregate_shape.
Qed.


(** X7.  The safety check on the rows.  The hours of a report are the
    hours [calculateAvailableHours] returned, and there is at least one:
    the default rows 8 to 23 of [createHoursDaysTable] are never used. *)
Theorem fallback_rows_are_never_used (ss : Spreadsheet)
    (response : option string) (rep : report) :
  createHoursDaysTable ss response = Some rep ->
  rep_timeRows rep <> []
  /\ exists (info : ClubInfo) (monthNum year : Z) (av : availability),
       clubInfo ss = Some info
       /\ calculateAvailableHours info monthNum year = Some av
       /\ rep_timeRows rep = timeRows av.
Proof.
  intros Hrun.
  destruct (createHoursDaysTable_inv _ _ _ Hrun)
    as (md & monthNum & year & info & av & src & _ & _ & _ & _ & Hinfo & Hav
        & _ & Hrows & _).
  pose proof (timeRows_nonempty _ _ _ _ Hav) as Hne.
  assert (Hsame : rep_timeRows rep = timeRows av).
  { rewrite Hrows. destruct (timeRows av); [contradiction|reflexivity]. }
  split; [rewrite Hsame; exact Hne|].
  exists info, monthNum, year, av. auto.
Qed.

End ShapeFacts.


(** ** Placing a booking *)

Lemma indexOf_from_seqZ (first : Z) (len : nat) (h i : Z) :
  first <= h < first + Z.of_nat len ->
  indexOf_from (seqZ first (Z.of_nat len)) h i = i + (h - first).
Proof.
  revert first i. induction len as [|len IH]; intros first i Hh; [lia|].
  rewrite seqZ_cons by lia. simpl.
  destruct (Z.eqb_spec first h) as [->|Hne]; [lia|].
  replace (Z.pred (Z.of_nat (S len))) with (Z.of_nat len) by lia.
  rewrite IH by lia. lia.
Qed.

Lemma indexOf_from_absent (rows : list Z) (h i : Z) :
  h ∉ rows -> indexOf_from rows h i = -1.
Proof.
  revert i. induction rows as [|x rows IH]; intros i Hh; [reflexivity|].
  simpl. apply not_elem_of_cons in Hh. destruct Hh as [Hne Hh].
  destruct (Z.eqb_spec x h); [congruence|]. apply IH, Hh.
Qed.

Lemma grid_lookup_alter (f : cell -> cell) (g : grid) (r c r' c' : nat) :
  alter (alter f c) r g !! r' ≫= (.!! c')
  = if decide (r' = r /\ c' = c) then f <$> (g !! r ≫= (.!! c))
    else g !! r' ≫= (.!! c').
Proof.
  destruct (decide (r' = r)) as [->|Hr].
  - rewrite list_lookup_alter_eq. destruct (g !! r) as [row|]; simpl.
    + destruct (decide (c' = c)) as [->|Hc].
      * rewrite list_lookup_alter_eq.
        destruct (decide (r = r /\ c = c)); [reflexivity|tauto].
      * rewrite list_lookup_alter_ne by congruence.
        destruct (decide (r = r /\ c' = c)); [tauto|reflexivity].
    + destruct (decide (r = r /\ c' = c)); reflexivity.
  - rewrite list_lookup_alter_ne by congruence.
    destruct (decide (r' = r /\ c' = c)); [tauto|reflexivity].
Qed.

Section PlacingFacts.
Context `{JsHost}.

Lemma add_booking_placed (monthNum year first : Z) (len : nat)
    (daysInMonth : Z) (g : grid) (n : Z) (rowData : list cell)
    (dateValue startTime hours : cell) (d hh h : Z) :
  rowData !! 3%nat = Some dateValue ->
  rowData !! 5%nat = Some startTime ->
  rowData !! 7%nat = Some hours ->
  truthy dateValue = true -> truthy startTime = true -> truthy hours = true ->
  newDate_of dateValue = DateOf year (monthNum - 1) d hh ->
  booking_hour startTime = Int h ->
  first <= h < first + Z.of_nat len ->
  1 <= d <= daysInMonth ->
  add_booking monthNum year (seqZ first (Z.of_nat len)) daysInMonth (g, n)
    rowData
  = (grid_add g (Z.to_nat (h - first)) (Z.to_nat (d - 1)) hours, n + 1).
Proof.
  intros Hd Hs Hh Htd Hts Hth Hdate Hhour Hrange Hday.
  unfold add_booking. rewrite Hd, Hs, Hh, Htd, Hts, Hth, Hdate, Hhour.
  cbn [andb getDate getMonth getFullYear INum.add INum.eqb indexOf].
  replace (monthNum - 1 + 1) with monthNum by lia.
  rewrite !Z.eqb_refl. cbn [andb].
  rewrite indexOf_from_seqZ by exact Hrange.
  replace (0 + (h - first)) with (h - first) by lia.
  replace (d + -1) with (d - 1) by lia.
  destruct (Z.leb_spec 0 (h - first)); [|exfalso; lia].
  destruct (Z.leb_spec 0 (d - 1)); [|exfalso; lia].
  destruct (Z.ltb_spec (d - 1) daysInMonth); [|exfalso; lia].
  reflexivity.
Qed.

Lemma add_booking_count (monthNum year : Z) (timeRows : list Z)
    (daysInMonth : Z) (st : grid * Z) (rowData : list cell) :
  st.2 <= (add_booking monthNum year timeRows daysInMonth st rowData).2
       <= st.2 + 1.
Proof.
  unfold add_booking. destruct st as [g n]. cbn [snd].
  repeat match goal with
         | |- context [match ?x with _ => _ end] => destruct x
         end; cbn [snd]; lia.
Qed.

Lemma fold_add_booking_count (monthNum year : Z) (timeRows : list Z)
    (daysInMonth : Z) (rows : sheet) (st : grid * Z) :
  st.2 <= (fold_left (add_booking monthNum year timeRows daysInMonth)
             rows st).2
       <= st.2 + Z.of_nat (length rows).
Proof.
  revert st. induction rows as [|rowData rows IH]; intros st; simpl; [lia|].
  pose proof (add_booking_count monthNum year timeRows daysInMonth st rowData).
  specialize (IH (add_booking monthNum year timeRows daysInMonth st rowData)).
  lia.
Qed.

End PlacingFacts.


Lemma numeric_grid_zeros (rows cols : nat) :
  numeric_grid (replicate rows (replicate cols (VNum 0))).
Proof.
  apply Forall_replicate, Forall_replicate. exists 0%float. reflexivity.
Qed.

Section AggregateTheorems.
Context `{JsHost}.

Lemma add_booking_numeric (monthNum year : Z) (timeRows : list Z)
    (daysInMonth : Z) (st : grid * Z) (rowData : list cell) :
  (forall hours, rowData !! 7%nat = Some hours -> truthy hours = true ->
                 exists x, hours = VNum x) ->
  numeric_grid st.1 ->
  numeric_grid (add_booking monthNum year timeRows daysInMonth st rowData).1.
Proof.
  intros Hhours Hst. unfold add_booking. destruct st as [g n]. simpl in Hst.
  destruct (rowData !! 3%nat) as [dateValue|]; [|exact Hst].
  destruct (rowData !! 5%nat) as [startTime|]; [|exact Hst].
  destruct (rowData !! 7%nat) as [hours|]; [|exact Hst].
  destruct (truthy dateValue && truthy startTime && truthy hours) eqn:Ht;
    [|exact Hst].
  destruct (INum.eqb _ _ && INum.eqb _ _); [|exact Hst].
  destruct (INum.add (getDate (newDate_of dateValue)) (-1))
    as [| |di|]; try exact Hst.
  destruct ((0 <=? _) && (0 <=? di) && (di <? daysInMonth)); [|exact Hst].
  cbn [fst]. unfold grid_add.
  apply andb_true_iff in Ht. destruct Ht as [_ Ht].
  destruct (Hhours hours eq_refl Ht) as [x ->].
  apply Forall_alter; [exact Hst|]. intros row _ Hrow.
  apply Forall_alter; [exact Hrow|]. intros old _ [y ->].
  eexists. reflexivity.
Qed.

(** X8.  A booking of the target month, on a day of the month, at an hour
    that is a row of the report, is added to the cell of that hour and
    that day, and counted; every other cell stays as it is. *)
Theorem booking_is_placed (monthNum year first : Z) (len : nat)
    (daysInMonth : Z) (g : grid) (n : Z) (rowData : list cell)
    (dateValue startTime hours : cell) (d hh h : Z) :
  rowData !! 3%nat = Some dateValue ->
  rowData !! 5%nat = Some startTime ->
  rowData !! 7%nat = Some hours ->
  truthy dateValue = true -> truthy startTime = true -> truthy hours = true ->
  newDate_of dateValue = DateOf year (monthNum - 1) d hh ->
  booking_hour startTime = Int h ->
  first <= h < first + Z.of_nat len ->
  1 <= d <= daysInMonth ->
  let r := Z.to_nat (h - first) in
  let c := Z.to_nat (d - 1) in
  let st' :=
    add_booking monthNum year (seqZ first (Z.of_nat len)) daysInMonth (g, n)
      rowData in
  seqZ first (Z.of_nat len) !! r = Some h
  /\ st'.2 = n + 1
  /\ st'.1 !! r ≫= (.!! c) = (fun old => js_add old hours) <$> (g !! r ≫= (.!! c))
  /\ forall r' c' : nat,
       ~ (r' = r /\ c' = c) ->
       st'.1 !! r' ≫= (.!! c') = g !! r' ≫= (.!! c').
Proof.
  intros Hd Hs Hh Htd Hts Hth Hdate Hhour Hrange Hday. cbv zeta.
  rewrite (add_booking_placed _ _ _ _ _ _ _ _ _ _ _ _ _ _
             Hd Hs Hh Htd Hts Hth Hdate Hhour Hrange Hday).
  cbn [fst snd]. unfold grid_add. split.
  - rewrite lookup_seqZ. split; lia.
  - split; [reflexivity|]. split.
    + rewrite grid_lookup_alter.
      destruct (decide _) as [_|Hne]; [reflexivity|tauto].
    + intros r' c' Hother. rewrite grid_lookup_alter.
      destruct (decide _) as [Heq|_]; [tauto|reflexivity].
Qed.

(** X9.  A booking whose hour is not a row of the report, or whose day is
    not a day of the month, is dropped: the grid and the count stay as
    they are. *)
Theorem booking_outside_is_dropped (monthNum year : Z) (timeRows : list Z)
    (daysInMonth : Z) (st : grid * Z) (rowData : list cell) :
  (forall startTime h,
     rowData !! 5%nat = Some startTime ->
     booking_hour startTime = Int h -> h ∉ timeRows)
  \/ (forall dateValue y m d hh,
        rowData !! 3%nat = Some dateValue ->
        newDate_of dateValue = DateOf y m d hh ->
        d < 1 \/ daysInMonth < d) ->
  add_booking monthNum year timeRows daysInMonth st rowData = st.
Proof.
  intros Hout. unfold add_booking. destruct st as [g n].
  destruct (rowData !! 3%nat) as [dateValue|]; [|reflexivity].
  destruct (rowData !! 5%nat) as [startTime|]; [|reflexivity].
  destruct (rowData !! 7%nat) as [hours|]; [|reflexivity].
  destruct (truthy dateValue && truthy startTime && truthy hours);
    [|reflexivity].
  destruct (INum.eqb _ _ && INum.eqb _ _); [|reflexivity].
  destruct (newDate_of dateValue) as [|y m d hh] eqn:Hdate; [reflexivity|].
  cbn [getDate INum.add].
  destruct Hout as [Hhour|Hday].
  - assert (Hidx : indexOf timeRows (booking_hour startTime) = -1).
    { destruct (booking_hour startTime) as [| |h|] eqn:Hh; try reflexivity.
      apply indexOf_from_absent. eapply Hhour; eauto. }
    rewrite Hidx. reflexivity.
  - specialize (Hday dateValue y m d hh eq_refl Hdate).
    destruct (Z.leb_spec 0 (d + -1)); [|rewrite andb_false_r; reflexivity].
    destruct (Z.ltb_spec (d + -1) daysInMonth); [exfalso; lia|].
    rewrite andb_false_r. reflexivity.
Qed.

(** X10.  The count of processed rows is at most the number of rows below
    the header. *)
Theorem processed_count_bounds (monthNum year : Z) (timeRows : list Z)
    (daysInMonth : Z) (sourceData : sheet) :
  0 <= (aggregate monthNum year timeRows daysInMonth sourceData).2
    <= Z.of_nat (length sourceData - 1).
Proof.
  unfold aggregate.
  pose proof (fold_add_booking_count monthNum year timeRows daysInMonth
                (tail sourceData)
                (replicate (length timeRows)
                   (replicate (Z.to_nat daysInMonth) (VNum 0)), 0)) as Hc.
  cbn [snd] in Hc. destruct sourceData as [|header rows]; simpl in *; lia.
Qed.

(** X11.  When every hours cell that is not empty holds a number, every
    cell of the data grid holds a number. *)
Theorem numeric_hours_give_numeric_grid (monthNum year : Z)
    (timeRows : list Z) (daysInMonth : Z) (sourceData : sheet) :
  (forall rowData hours,
     rowData ∈ tail sourceData ->
     rowData !! 7%nat = Some hours -> truthy hours = true ->
     exists x, hours = VNum x) ->
  numeric_grid (aggregate monthNum year timeRows daysInMonth sourceData).1.
Proof.
  unfold aggregate. intros Hnum.
  assert (Hgen : forall rows st,
             (forall rowData hours, rowData ∈ rows ->
                rowData !! 7%nat = Some hours -> truthy hours = true ->
                exists x, hours = VNum x) ->
             numeric_grid st.1 ->
             numeric_grid
               (fold_left (add_booking monthNum year timeRows daysInMonth)
                  rows st).1).
  { induction rows as [|rowData rows IH]; intros st Hrows Hst; [exact Hst|].
    simpl. apply IH.
    - intros r hrs Hr. apply Hrows. apply elem_of_cons. auto.
    - apply add_booking_numeric; [|exact Hst].
      intros hrs. apply Hrows. apply elem_of_cons. auto. }
  apply Hgen; [exact Hnum|]. apply numeric_grid_zeros.
Qed.

(** X12.  A month number outside 1..12 matches no date: with such a month
    code the data grid stays empty and no row is counted. *)
Theorem month_out_of_range_gives_empty_grid (monthNum year : Z)
    (timeRows : list Z) (daysInMonth : Z) (sourceData : sheet) :
  monthNum < 1 \/ 12 < monthNum ->
  (forall rowData dateValue y m d hh,
     rowData ∈ tail sourceData ->
     rowData !! 3%nat = Some dateValue ->
     newDate_of dateValue = DateOf y m d hh -> 0 <= m <= 11) ->
  aggregate monthNum year timeRows daysInMonth sourceData
  = (replicate (length timeRows)
       (replicate (Z.to_nat daysInMonth) (VNum 0)), 0).
Proof.
  intros Hmonth Hvalid. unfold aggregate.
  generalize (replicate (length timeRows)
                (replicate (Z.to_nat daysInMonth) (VNum 0)), 0).
  revert Hvalid. generalize (tail sourceData). clear sourceData.
  induction l as [|rowData rows IH]; intros Hvalid st; [reflexivity|].
  simpl.
  assert (Hskip : add_booking monthNum year timeRows daysInMonth st rowData
                  = st).
  { destruct (rowData !! 3%nat) as [dateValue|] eqn:Hd.
    - destruct (newDate_of dateValue) as [|y m d hh] eqn:Hdate.
      + unfold add_booking. destruct st as [g n]. rewrite Hd, Hdate.
        cbn [getMonth getFullYear getDate INum.add INum.eqb andb].
        destruct (rowData !! 5%nat); [|reflexivity].
        destruct (rowData !! 7%nat); [|reflexivity].
        destruct (truthy dateValue && _ && _); reflexivity.
      + eapply add_booking_other_month; [exact Hd|exact Hdate|].
        left.
        assert (0 <= m <= 11)
          by (eapply (Hvalid rowData); [apply elem_of_cons; auto|eauto..]).
        lia.
    - apply add_booking_falsy. left. rewrite Hd. reflexivity. }
  rewrite Hskip. apply IH.
  intros r dv y m d hh Hr. apply (Hvalid r). apply elem_of_cons. auto.
Qed.

End AggregateTheorems.


(** ** Texts the parser reads *)

Lemma forallb_seqZ_pairs (f : Z -> Z -> bool) (a n b k : Z) :
  forallb (fun h => forallb (f h) (seqZ b k)) (seqZ a n) = true ->
  forall h m, a <= h < a + n -> b <= m < b + k -> f h m = true.
Proof.
  intros Hall h m Hh Hm. rewrite forallb_forall in Hall.
  specialize (Hall h). rewrite forallb_forall in Hall.
  apply Hall; apply list_elem_of_In, elem_of_seqZ; assumption.
Qed.

(** X13.  Clock times in the documented formats.  "h:mm am" and "h:mm pm",
    in either case, give the hour on the 24-hour clock, with 12 am as 0
    and 12 pm as 12; "h:mm" and "hh:mm" give the hour as written. *)
Theorem clock_texts_parse (h m : Z) :
  0 <= m <= 59 ->
  (1 <= h <= 12 ->
   parseHourFromTime (VStr (clock_text h m +:+ " am")) = Int (h mod 12)
   /\ parseHourFromTime (VStr (clock_text h m +:+ " AM")) = Int (h mod 12)
   /\ parseHourFromTime (VStr (clock_text h m +:+ " pm"))
      = Int (h mod 12 + 12)
   /\ parseHourFromTime (VStr (clock_text h m +:+ " PM"))
      = Int (h mod 12 + 12))
  /\ (0 <= h <= 23 ->
      parseHourFromTime (VStr (clock_text h m)) = Int h
      /\ parseHourFromTime (VStr (two_digits h +:+ ":" +:+ two_digits m))
         = Int h).
Proof.
  intros Hm. split; intros Hh.
  - assert (Hall : forallb (fun h => forallb (clock_12_ok h) (seqZ 0 60))
                     (seqZ 1 12) = true) by (vm_compute; reflexivity).
    pose proof (forallb_seqZ_pairs _ _ _ _ _ Hall h m
                  ltac:(lia) ltac:(lia)) as Hok.
    unfold clock_12_ok in Hok. rewrite !andb_true_iff in Hok.
    destruct Hok as [[[H1 H2] H3] H4].
    repeat split; apply INum_eqb_eq; assumption.
  - assert (Hall : forallb (fun h => forallb (clock_24_ok h) (seqZ 0 60))
                     (seqZ 0 24) = true) by (vm_compute; reflexivity).
    pose proof (forallb_seqZ_pairs _ _ _ _ _ Hall h m
                  ltac:(lia) ltac:(lia)) as Hok.
    unfold clock_24_ok in Hok. rewrite !andb_true_iff in Hok.
    destruct Hok as [H1 H2].
    split; apply INum_eqb_eq; assumption.
Qed.

Lemma is_digit_false_digit_value (c : ascii) :
  Str.is_digit c = false -> Str.digit_value 10 c = None.
Proof.
  destruct c as [[] [] [] [] [] [] [] []]; vm_compute;
    intros Hd; try discriminate; reflexivity.
Qed.

Lemma has_digit_trimStart (s : string) :
  has_digit s = false -> has_digit (Str.trimStart s) = false.
Proof.
  induction s as [|c s IH]; simpl; [reflexivity|].
  intros Hd. apply orb_false_iff in Hd. destruct Hd as [Hc Hs].
  destruct (Str.is_space c); [auto|]. simpl. rewrite Hc. exact Hs.
Qed.

Lemma has_digit_trimEnd (s : string) :
  has_digit s = false -> has_digit (Str.trimEnd s) = false.
Proof.
  induction s as [|c s IH]; simpl; [reflexivity|].
  intros Hd. apply orb_false_iff in Hd. destruct Hd as [Hc Hs].
  destruct (Str.is_space c && _); [reflexivity|].
  simpl. rewrite Hc. auto.
Qed.

Lemma search_needs_a_digit (rest : Regex.t) (s : string) :
  has_digit s = false ->
  Regex.search (Regex.Seq (Regex.Grp 1 Regex.digit12) rest) s = None.
Proof.
  induction s as [|c s IH]; intros Hd; [reflexivity|].
  simpl in Hd. apply orb_false_iff in Hd. destruct Hd as [Hc Hs].
  cbn [Regex.search Regex.run Regex.digit12 Regex.rep]. rewrite Hc.
  apply IH, Hs.
Qed.

Lemma parseInt_needs_a_digit (s : string) :
  has_digit s = false -> Str.parseInt s = NaN.
Proof.
  intros Hd. apply has_digit_trimStart in Hd. unfold Str.parseInt.
  destruct (Str.trimStart s) as [|c s1]; [reflexivity|].
  simpl in Hd. apply orb_false_iff in Hd. destruct Hd as [Hc Hs].
  assert (Hnone : forall t, has_digit t = false ->
                    match t with
                    | String "0" (String "x" r) | String "0" (String "X" r) =>
                        (16, r)
                    | _ => (10, t)
                    end = (10, t)).
  { intros [|c2 t] Ht; [reflexivity|]. simpl in Ht.
    apply orb_false_iff in Ht. destruct Ht as [Hc2 _].
    destruct c2 as [[] [] [] [] [] [] [] []]; try reflexivity;
      vm_compute in Hc2; discriminate. }
  assert (Hdigits : forall t, has_digit t = false ->
                      Str.digits 10 t 0 false = None).
  { intros [|c2 t] Ht; [reflexivity|]. simpl in Ht.
    apply orb_false_iff in Ht. destruct Ht as [Hc2 _].
    simpl. rewrite (is_digit_false_digit_value _ Hc2). reflexivity. }
  assert (Hcs : has_digit (String c s1) = false)
    by (simpl; rewrite Hc; exact Hs).
  destruct (Ascii.eqb_spec c "-") as [->|Hminus];
    [rewrite (Hnone _ Hs), (Hdigits _ Hs); reflexivity|].
  destruct (Ascii.eqb_spec c "+") as [->|Hplus];
    [rewrite (Hnone _ Hs), (Hdigits _ Hs); reflexivity|].
  assert (Hsign : match String c s1 with
                  | String "-" r => (-1, r)
                  | String "+" r => (1, r)
                  | _ => (1, String c s1)
                  end = (1, String c s1)).
  { destruct c as [[] [] [] [] [] [] [] []]; try reflexivity; congruence. }
  rewrite Hsign, (Hnone _ Hcs), (Hdigits _ Hcs). reflexivity.
Qed.

(** X14.  A text without a digit gives hour 0. *)
Theorem text_without_digit_is_hour_0 (s : string) :
  has_digit s = false -> parseHourFromTime (VStr s) = Int 0.
Proof.
  intros Hd. unfold parseHourFromTime.
  destruct (negb (truthy (VStr s)) && negb (is_number_zero (VStr s)));
    [reflexivity|].
  assert (Ht : has_digit (Str.trim s) = false)
    by (apply has_digit_trimEnd, has_digit_trimStart, Hd).
  unfold parseHourFromString, Regex.ampm, Regex.hour_colon.
  rewrite !search_needs_a_digit by exact Ht.
  rewrite (parseInt_needs_a_digit _ Ht). reflexivity.
Qed.


(** ** Sums of column H *)

Lemma sumColumnH_app (before after : sheet) :
  sumColumnH (before ++ after)
  = fold_left
      (fun sum value =>
         match value with
         | VNum x => if negb (is_nan x) then (sum + x)%float else sum
         | _ => sum
         end)
      (columnH after) (sumColumnH before).
Proof.
  unfold sumColumnH, columnH. rewrite map_app, fold_left_app. reflexivity.
Qed.

(** X15.  The sum of column H.  A row whose cell in column H is not a
    number (a text such as the header, an empty cell, a date, a missing
    cell) or is NaN does not change the sum; a row added at the end
    with a number in column H adds that number to the sum. *)
Theorem sumColumnH_rows (before after : sheet) (rowData : list cell) :
  ((forall x, rowData !! 7%nat = Some (VNum x) -> is_nan x = true) ->
   sumColumnH (before ++ rowData :: after) = sumColumnH (before ++ after))
  /\ (forall x, rowData !! 7%nat = Some (VNum x) -> is_nan x = false ->
      sumColumnH (before ++ [rowData]) = (sumColumnH before + x)%float).
Proof.
  split.
  - intros Hskip. rewrite !sumColumnH_app. unfold columnH.
    cbn [map fold_left].
    destruct (rowData !! 7%nat) as [[s|x|b|d]|]; cbn [default from_option id];
      try reflexivity.
    rewrite (Hskip x eq_refl). reflexivity.
  - intros x Hx Hn. rewrite sumColumnH_app. unfold columnH.
    cbn [map fold_left]. rewrite Hx. cbn [default from_option id].
    rewrite Hn. reflexivity.
Qed.

(** ** The diagnostic and the resolver *)

Lemma close_hours_agree (closeTime : string) :
  traditional_close closeTime = check_close closeTime
  \/ (check_close closeTime = Int 0 /\ traditional_close closeTime = Int 24).
Proof.
  unfold traditional_close, check_close.
  destruct (String.eqb_spec closeTime "24:00") as [->|H24]; [left; reflexivity|].
  destruct (String.eqb_spec closeTime "00:00") as [->|H00]; [left; reflexivity|].
  simpl.
  destruct (INum.eqb _ (Int 0) && _) eqn:Hzero; [|left; reflexivity].
  right. split; [|reflexivity].
  apply andb_true_iff in Hzero. destruct Hzero as [Hzero _].
  apply INum_eqb_eq in Hzero. exact Hzero.
Qed.

Lemma close_hours_nan (closeTime : string) :
  INum.isNaN (traditional_close closeTime)
  = INum.isNaN (check_close closeTime).
Proof.
  destruct (close_hours_agree closeTime) as [->|[-> ->]]; reflexivity.
Qed.

Lemma validDays_count (rawData : list (cell * cell)) (n : nat) :
  fold_left (fun n row => if truthy row.1 && truthy row.2 then S n else n)
    rawData n
  = (n + length (filter (fun row => truthy row.1 && truthy row.2 = true)
                   rawData))%nat.
Proof.
  revert n. induction rawData as [|row rows IH]; intros n; simpl; [lia|].
  rewrite IH. rewrite filter_cons.
  destruct (decide _) as [Ht|Ht]; simpl.
  - rewrite Ht. lia.
  - destruct (truthy row.1 && truthy row.2); [congruence|lia].
Qed.

Section DiagnosticFacts.
Context `{JsHost}.

(** X16.  The diagnostic agrees with the resolver.  A row is shown with
    status OK exactly when [calculateAvailableHours] stores it; a stored
    row has the open hour shown, and the close hour shown unless the
    diagnostic shows 0 where the resolver uses 24.  Every other row
    leaves the opening hours as they are. *)
Theorem diagnostic_agrees_with_resolver (st : hours_state)
    (row : cell * cell) :
  (forall line, check_row row = Some line -> shown_status line = CheckOK ->
     exists openHour closeHour : inum,
       shown_open line = Some openHour
       /\ traditional_row st row
          = store_hours (toString row.1) openHour closeHour st
       /\ (shown_close line = Some closeHour
           \/ (shown_close line = Some (Int 0) /\ closeHour = Int 24)))
  /\ ((forall line, check_row row = Some line ->
                    shown_status line <> CheckOK) ->
      traditional_row st row = st).
Proof.
  destruct row as [dayName hoursString].
  unfold check_row, traditional_row. cbn [fst].
  destruct (truthy dayName && truthy hoursString);
    [|split; [discriminate|reflexivity]].
  destruct (Str.split "-" (toString hoursString)) as [|p0 [|p1 [|p2 ps]]];
    try (split; [intros line Hline Hok; injection Hline as <-; discriminate
                |reflexivity]).
  rewrite close_hours_nan.
  destruct (negb _ && negb _) eqn:Hvalid; split.
  - intros line Hline _. injection Hline as <-. cbn.
    eexists _, (traditional_close (Str.trim p1)).
    split; [reflexivity|]. split; [reflexivity|].
    destruct (close_hours_agree (Str.trim p1)) as [->|[-> ->]]; auto.
  - intros Hnot. exfalso. eapply Hnot; reflexivity.
  - intros line Hline Hok. injection Hline as <-. discriminate.
  - reflexivity.
Qed.

Lemma check_row_shown (row : cell * cell) :
  is_Some (check_row row) <-> truthy row.1 && truthy row.2 = true.
Proof.
  destruct row as [dayName hoursString]. unfold check_row. cbn [fst snd].
  destruct (truthy dayName && truthy hoursString).
  - destruct (Str.split "-" (toString hoursString))
      as [|p0 [|p1 [|p2 ps]]]; split; eauto.
  - split; [intros [line Hline]; discriminate|discriminate].
Qed.

(** X17.  The count of the diagnostic.  "Days with data" counts the rows
    with a day and hours, which are the rows shown; the list format is
    chosen exactly when that count is not 0. *)
Theorem diagnostic_count (ss : Spreadsheet) (info : ClubInfo) :
  clubInfo ss = Some info ->
  exists lines n,
    checkClubInfo ss = Some (lines, n)
    /\ length lines = n
    /\ (hasTraditionalFormat (A9_B25 info) = true <-> (0 < n)%nat).
Proof.
  intros Hinfo. unfold checkClubInfo. rewrite Hinfo. simpl.
  eexists _, _. split; [reflexivity|].
  unfold validDays. rewrite validDays_count.
  generalize (A9_B25 info). intros rawData. split.
  - induction rawData as [|row rows IH]; [reflexivity|].
    cbn [omap list_omap]. rewrite filter_cons.
    pose proof (check_row_shown row) as Hshown.
    destruct (decide _) as [Ht|Ht].
    + destruct (check_row row) as [line|];
        [cbn [length]; rewrite IH; lia|].
      apply Hshown in Ht. destruct Ht; discriminate.
    + destruct (check_row row) as [line|]; [|exact IH].
      exfalso. apply Ht, Hshown. eauto.
  - unfold hasTraditionalFormat.
    induction rawData as [|row rows IH]; [simpl; split; [discriminate|lia]|].
    cbn [existsb]. rewrite filter_cons. destruct (decide _) as [Ht|Ht].
    + rewrite Ht. simpl. split; [lia|reflexivity].
    + destruct (truthy row.1 && truthy row.2); [congruence|]. exact IH.
Qed.

End DiagnosticFacts.


(** ** The calendar of the script *)






Lemma month_ok_true (year monthNum : Z) :
  month_ok year monthNum = true ->
  daysInMonth_of monthNum year = calendar_days monthNum year
  /\ Calendar.dayOf year (monthNum - 1) 1
     = (Calendar.dayOf year (monthNum - 2)
          (daysInMonth_of (monthNum - 1) year) + 1) mod 7.
Proof.
  unfold month_ok. intros Hok. apply andb_prop in Hok.
  destruct Hok as [Hdays Hstart]. split; apply Z.eqb_eq; assumption.
Qed.


Lemma months_2000_2099 :
  forallb (fun y => forallb (month_ok y) (seqZ 1 12)) (seqZ 2000 100) = true.
Proof. vm_compute. reflexivity. Qed.

(** X19.  The days of the month.  For every month of the years 2000 to
    2099, the years a month code can name, [daysInMonth] is the number
    of days of that month, 29 for February in leap years, and the month
    starts on the weekday after the last day of the month before;
    1 January 2000 is a Saturday. *)
Theorem days_in_month_are_right (monthNum year : Z) :
  1 <= monthNum <= 12 ->
  2000 <= year <= 2099 ->
  daysInMonth_of monthNum year = calendar_days monthNum year
  /\ Calendar.dayOf year (monthNum - 1) 1
     = (Calendar.dayOf year (monthNum - 2)
          (daysInMonth_of (monthNum - 1) year) + 1) mod 7
  /\ Calendar.dayOf 2000 0 1 = 6.
Proof.
  intros Hm Hy.
  assert (Hok : month_ok year monthNum = true)
    by (apply (forallb_seqZ_pairs month_ok 2000 100 1 12 months_2000_2099);
        lia).
  destruct (month_ok_true _ _ Hok) as [Hdays Hstart].
  split; [exact Hdays|]. split; [exact Hstart|]. reflexivity.
Qed.

(** ** What the patterns capture *)















(** ** The grid format gives a result *)




Section GridFormat.
Context `{JsHost}.


End GridFormat.

(** ** The properties above on the sample data *)

Lemma timeRows_contiguous_witness :
  exists av,
    @calculateAvailableHours strict_host weekdays_info 2 2025 = Some av
    /\ exists e l : Z,
         earliestHour
           (use_defaults (@parse_opening_hours strict_host weekdays_info))
         = Int e
         /\ av_latestHour av = Int l
         /\ av_earliestHour av = Int (if e <=? l - 1 then e else 8)
         /\ timeRows av = (if e <=? l - 1 then seqZ e (l - e) else seqZ 8 16)
         /\ timeRows av <> [].
Proof.
  destruct (@calculateAvailableHours strict_host weekdays_info 2 2025)
    as [av|] eqn:Hrun; [|vm_compute in Hrun; discriminate].
  exists av. split; [reflexivity|].
  exact (@timeRows_contiguous strict_host weekdays_info 2 2025 av Hrun).
Defined.

Lemma timeRows_cover_opening_hours_witness :
  exists av,
    @calculateAvailableHours strict_host weekdays_info 2 2025 = Some av
    /\ 12 ∈ timeRows av.
Proof.
  destruct (@calculateAvailableHours strict_host weekdays_info 2 2025)
    as [av|] eqn:Hrun; [|vm_compute in Hrun; discriminate].
  exists av. split; [reflexivity|].
  apply (@timeRows_cover_opening_hours strict_host weekdays_info 2 2025 av
           "Monday" {| open := Int 9; close := Int 17 |} 12 Hrun).
  - unfold dayNames. apply elem_of_cons. right. apply elem_of_cons. left.
    reflexivity.
  - destruct (@calculateAvailableHours_inv strict_host _ _ _ _ Hrun)
      as (_ & _ & _ & -> & _).
    vm_compute. reflexivity.
  - reflexivity.
  - reflexivity.
Defined.


Lemma month_code_range_witness :
  exists monthNum year : Z,
    Str.parseInt (String.substring 0 2 "0225") = Int monthNum
    /\ Str.parseInt ("20" +:+ String.substring 2 2 "0225") = Int year
    /\ 0 <= monthNum <= 99
    /\ 2000 <= year <= 2099.
Proof. apply (month_code_range "0225"). reflexivity. Defined.

Lemma grids_have_the_same_shape_witness :
  exists rep,
    @createHoursDaysTable strict_host feb_book (Some "0225"%string) = Some rep
    /\ has_shape (length (rep_timeRows rep))
         (Z.to_nat (rep_daysInMonth rep)) (rep_availableGrid rep)
    /\ has_shape (length (rep_timeRows rep))
         (Z.to_nat (rep_daysInMonth rep)) (dataGrid rep).
Proof.
  destruct (@createHoursDaysTable strict_host feb_book (Some "0225"%string))
    as [rep|] eqn:Hrun; [|vm_compute in Hrun; discriminate].
  exists rep. split; [reflexivity|].
  exact (@grids_have_the_same_shape strict_host feb_book
           (Some "0225"%string) rep Hrun).
Defined.


Lemma fallback_rows_are_never_used_witness :
  exists rep,
    @createHoursDaysTable strict_host feb_book (Some "0225"%string) = Some rep
    /\ rep_timeRows rep <> [].
Proof.
  destruct (@createHoursDaysTable strict_host feb_book (Some "0225"%string))
    as [rep|] eqn:Hrun; [|vm_compute in Hrun; discriminate].
  exists rep. split; [reflexivity|].
  apply (@fallback_rows_are_never_used strict_host feb_book
           (Some "0225"%string) rep Hrun).
Defined.

Lemma booking_is_placed_witness :
  (@add_booking strict_host 2 2025 (seqZ 9 (Z.of_nat 8)) 28
     (replicate 8 (replicate 28 (VNum 0)), 0)
     (booking_row feb3 (VStr "10:00 am") (VNum 2))).2 = 0 + 1
  /\ (@add_booking strict_host 2 2025 (seqZ 9 (Z.of_nat 8)) 28
        (replicate 8 (replicate 28 (VNum 0)), 0)
        (booking_row feb3 (VStr "10:00 am") (VNum 2))).1
     !! Z.to_nat (10 - 9) ≫= (.!! Z.to_nat (3 - 1))
     = (fun old => @js_add strict_host old (VNum 2))
       <$> (replicate 8 (replicate 28 (VNum 0))
            !! Z.to_nat (10 - 9) ≫= (.!! Z.to_nat (3 - 1))).
Proof.
  destruct (@booking_is_placed strict_host 2 2025 9 8 28
              (replicate 8 (replicate 28 (VNum 0))) 0
              (booking_row feb3 (VStr "10:00 am") (VNum 2))
              feb3 (VStr "10:00 am") (VNum 2) 3 0 10
              eq_refl eq_refl eq_refl eq_refl eq_refl eq_refl eq_refl
              eq_refl ltac:(lia) ltac:(lia))
    as (_ & Hcount & Hcell & _).
  split; [exact Hcount|exact Hcell].
Defined.

Lemma booking_outside_is_dropped_witness :
  @add_booking strict_host 2 2025 (seqZ 9 8) 28
    (replicate 8 (replicate 28 (VNum 0)), 0)
    (booking_row feb3 (VStr "6:00 am") (VNum 1))
  = (replicate 8 (replicate 28 (VNum 0)), 0).
Proof.
  apply (@booking_outside_is_dropped strict_host). left.
  intros startTime h Hstart Hhour. injection Hstart as <-.
  vm_compute in Hhour. injection Hhour as <-.
  rewrite elem_of_seqZ. lia.
Defined.

Lemma numeric_hours_give_numeric_grid_witness :
  numeric_grid (@aggregate strict_host 2 2025 (seqZ 9 8) 28 feb_split).1.
Proof.
  apply (@numeric_hours_give_numeric_grid strict_host).
  intros rowData hours Hrow. unfold feb_split in Hrow. cbn [tail] in Hrow.
  rewrite !elem_of_cons, elem_of_nil in Hrow.
  intros Hhours _.
  repeat destruct Hrow as [->|Hrow]; try contradiction;
    injection Hhours as <-; eexists; reflexivity.
Defined.

Lemma month_out_of_range_gives_empty_grid_witness :
  @aggregate strict_host 13 2025 (seqZ 9 8) 28 feb_split
  = (replicate (length (seqZ 9 8)) (replicate (Z.to_nat 28) (VNum 0)), 0).
Proof.
  apply (@month_out_of_range_gives_empty_grid strict_host); [lia|].
  intros rowData dateValue y m d hh Hrow. unfold feb_split in Hrow.
  cbn [tail] in Hrow. rewrite !elem_of_cons, elem_of_nil in Hrow.
  intros Hdate Hnew.
  repeat destruct Hrow as [->|Hrow]; try contradiction;
    injection Hdate as <-; injection Hnew as <- <- <- <-; lia.
Defined.

Lemma clock_texts_parse_witness :
  parseHourFromTime (VStr (clock_text 9 30 +:+ " pm")) = Int (9 mod 12 + 12)
  /\ parseHourFromTime (VStr (two_digits 9 +:+ ":" +:+ two_digits 30))
     = Int 9.
Proof.
  destruct (clock_texts_parse 9 30 ltac:(lia)) as [H12 H24].
  destruct (H12 ltac:(lia)) as (_ & _ & Hpm & _).
  destruct (H24 ltac:(lia)) as (_ & Hzero).
  split; [exact Hpm|exact Hzero].
Defined.

Lemma text_without_digit_is_hour_0_witness :
  parseHourFromTime (VStr "closed") = Int 0.
Proof. apply text_without_digit_is_hour_0. reflexivity. Defined.

Lemma sumColumnH_rows_witness :
  sumColumnH ([] ++ header_row :: feb_split) = sumColumnH ([] ++ feb_split)
  /\ sumColumnH (feb_split ++ [booking_row feb3 (VStr "9:00 am") (VNum 1.5)])
     = (sumColumnH feb_split + 1.5)%float.
Proof.
  split.
  - apply (proj1 (sumColumnH_rows [] feb_split header_row)).
    intros x Hx. discriminate.
  - apply (proj2 (sumColumnH_rows feb_split []
                    (booking_row feb3 (VStr "9:00 am") (VNum 1.5))) 1.5%float);
      reflexivity.
Defined.

Lemma diagnostic_agrees_with_resolver_witness :
  (exists openHour closeHour : inum,
     @traditional_row strict_host initial_hours
       (VStr "Monday", VStr "09:00-17:00")
     = store_hours "Monday" openHour closeHour initial_hours)
  /\ @traditional_row strict_host initial_hours (VStr "Monday", VStr "closed")
     = initial_hours.
Proof.
  split.
  - destruct (@check_row strict_host (VStr "Monday", VStr "09:00-17:00"))
      as [line|] eqn:Hline; [|vm_compute in Hline; discriminate].
    assert (Hok : shown_status line = CheckOK)
      by (vm_compute in Hline; injection Hline as <-; reflexivity).
    destruct (proj1 (@diagnostic_agrees_with_resolver strict_host
                       initial_hours (VStr "Monday", VStr "09:00-17:00"))
                line Hline Hok) as (o & c & _ & Hrow & _).
    exists o, c. exact Hrow.
  - apply (proj2 (@diagnostic_agrees_with_resolver strict_host
                    initial_hours (VStr "Monday", VStr "closed"))).
    intros line Hline. vm_compute in Hline. injection Hline as <-.
    discriminate.
Defined.

Lemma diagnostic_count_witness :
  exists lines n,
    @checkClubInfo strict_host feb_book = Some (lines, n)
    /\ length lines = n
    /\ (@hasTraditionalFormat (A9_B25 weekdays_info) = true <-> (0 < n)%nat).
Proof.
  apply (@diagnostic_count strict_host feb_book weekdays_info). reflexivity.
Defined.


Lemma days_in_month_are_right_witness :
  daysInMonth_of 2 2024 = calendar_days 2 2024
  /\ Calendar.dayOf 2024 (2 - 1) 1
     = (Calendar.dayOf 2024 (2 - 2) (daysInMonth_of (2 - 1) 2024) + 1) mod 7
  /\ Calendar.dayOf 2000 0 1 = 6.
Proof. apply (days_in_month_are_right 2 2024); lia. Defined.


(** ** Sample runs *)

Example parseInt_leading_zero : Str.parseInt " 08:30" = Int 8.
Proof. reflexivity. Qed.

Example parseInt_hexadecimal : Str.parseInt "0x1f" = Int 31.
Proof. reflexivity. Qed.

Example split_hours_range :
  Str.split "-" "08:00-24:00" = ["08:00"; "24:00"]%string.
Proof. reflexivity. Qed.

Example split_empty_text : Str.split "-" "" = [""]%string.
Proof. reflexivity. Qed.

Example print_negative_hour : Str.of_inum (Int (-305)) = "-305"%string.
Proof. reflexivity. Qed.

Example floor_of_noon : Math_floor (0.5 * 24)%float = Int 12.
Proof. vm_compute. reflexivity. Qed.

Example parse_am_with_minutes : parseHourFromTime (VStr "11:00 AM") = Int 11.
Proof. vm_compute. reflexivity. Qed.

Example parse_pm_lower_case : parseHourFromTime (VStr "9:30 pm") = Int 21.
Proof. vm_compute. reflexivity. Qed.

Example parse_24_hour_text : parseHourFromTime (VStr "14:00") = Int 14.
Proof. vm_compute. reflexivity. Qed.

Example parse_bare_number_text : parseHourFromTime (VStr "7") = Int 7.
Proof. vm_compute. reflexivity. Qed.

Example parse_empty_cell : parseHourFromTime (VStr "") = Int 0.
Proof. vm_compute. reflexivity. Qed.

Example parse_number_zero : parseHourFromTime (VNum 0) = Int 0.
Proof. vm_compute. reflexivity. Qed.

(** The match is the first one from the left: in "123PM" it is "23PM". *)
Example parse_backtracks : parseHourFromTime (VStr "123PM") = Int 35.
Proof. vm_compute. reflexivity. Qed.

Example format_midnight : formatTimeAMPM (Int 24) = "Midnight"%string.
Proof. vm_compute. reflexivity. Qed.

Example february_2025 : daysInMonth_of 2 2025 = 28.
Proof. reflexivity. Qed.

Example february_2024 : daysInMonth_of 2 2024 = 29.
Proof. reflexivity. Qed.

Example first_of_february_2025 :
  buildDayOfWeekCache 2 2025 !! 1
  = Some {| dayName := "Saturday"; dayIndex := 6 |}.
Proof. vm_compute. reflexivity. Qed.

Example day_zero_of_january :
  Calendar.newDate 2025 0 0 = DateOf 2024 11 31 0.
Proof. reflexivity. Qed.

(** The report of February 2025 for the sample book: the rows are the
    hours 9 to 16, there are 28 days, and the first row is 2 on the
    weekdays and 0 at the weekend. *)
Example february_report :
  (fun rep => (rep_timeRows rep, rep_daysInMonth rep,
               rep_availableGrid rep !! 0%nat))
    <$> @createHoursDaysTable strict_host feb_book (Some "0225"%string)
  = Some ([9; 10; 11; 12; 13; 14; 15; 16], 28,
          Some [VNum 0; VNum 0; VNum 2; VNum 2; VNum 2; VNum 2; VNum 2;
                VNum 0; VNum 0; VNum 2; VNum 2; VNum 2; VNum 2; VNum 2;
                VNum 0; VNum 0; VNum 2; VNum 2; VNum 2; VNum 2; VNum 2;
                VNum 0; VNum 0; VNum 2; VNum 2; VNum 2; VNum 2; VNum 2]).
Proof. vm_compute. reflexivity. Qed.
